(** * The agent module of llm-k8s: configuration loader, model selector,
      search adapter and start-up sequence

    A shallow embedding of [src/agent/src/agent.py] and [src/agent/src/main.py].
    Python values coming from JSON are an untyped inductive [pyval]; the
    environment is a finite map; every function that logs, calls a
    collaborator or may raise lives in the monad [M], which records the
    observable events in order and ends in a value or a raised exception. *)

From Stdlib Require Import Floats Ascii String ZArith NArith.
From stdpp Require Import base gmap strings list pretty.

#[local] Set Warnings "-register-all,-clear-no-such-hyp".

(** ** Python strings

    A Python [str] is represented by its UTF-8 encoding, one [ascii] per
    byte; a code point is a lead byte followed by its continuation bytes
    (those of the form 10xxxxxx). *)

Module PyStr.

Definition is_continuation (c : ascii) : bool :=
  match c with
  | Ascii _ _ _ _ _ _ b6 b7 => b7 && negb b6
  end.

Definition starts_with_continuation (s : string) : bool :=
  match s with
  | String c _ => is_continuation c
  | EmptyString => false
  end.

(** The code points of a string, each as a one-character string. *)
Fixpoint chars (s : string) : list string :=
  match s with
  | EmptyString => []
  | String c rest =>
      match chars rest with
      | g :: gs =>
          if starts_with_continuation rest then String c g :: gs
          else String c EmptyString :: g :: gs
      | [] => [String c EmptyString]
      end
  end.

(** [len(s)] counts code points. *)
Definition len (s : string) : nat := length (chars s).

(** [s[:n]] keeps the first [n] code points. *)
Definition slice_to (n : nat) (s : string) : string :=
  String.concat "" (take n (chars s)).

(** [sep.join(l)]. *)
Definition join (sep : string) (l : list string) : string :=
  String.concat sep l.

(** [s * n], the string repeated. *)
Fixpoint repeat (s : string) (n : nat) : string :=
  match n with
  | O => ""
  | S n' => s +:+ repeat s n'
  end.

Definition lower_ascii (c : ascii) : ascii :=
  let n := Ascii.N_of_ascii c in
  if (65 <=? n)%N && (n <=? 90)%N then Ascii.ascii_of_N (n + 32) else c.

(** [s.lower()] on the ASCII letters.  Bytes of multi-byte code points are
    left alone: no such code point lower-cases to one of the letters of
    [true], which is the only use the module makes of [lower]. *)
Fixpoint lower (s : string) : string :=
  match s with
  | EmptyString => EmptyString
  | String c rest => String (lower_ascii c) (lower rest)
  end.

(** [str(n)] for a natural number. *)
Definition of_nat (n : nat) : string := pretty n.

End PyStr.

(** ** Python values as the JSON decoder and the search client return them *)

Inductive pyval :=
| PyNone
| PyBool (b : bool)
| PyInt (z : Z)
| PyFloat (f : float)
| PyStr (s : string)
| PyList (l : list pyval)
| PyDict (d : gmap string pyval).

(** [type(v).__name__] *)
Definition py_type_name (v : pyval) : string :=
  match v with
  | PyNone => "NoneType"
  | PyBool _ => "bool"
  | PyInt _ => "int"
  | PyFloat _ => "float"
  | PyStr _ => "str"
  | PyList _ => "list"
  | PyDict _ => "dict"
  end.

(** ** Exceptions

    [exn] stands for instances of Python's [Exception], the class the
    module's catch-all handlers are written against.  The classes named
    here are the ones the handlers tell apart and the ones the built-in
    operations of the model raise; [OtherException] is any further class
    that derives from none of the four the loader handles by name. *)

Inductive exn_class :=
| FileNotFoundError
| JSONDecodeError
| ImportError
| ModuleNotFoundError
| CalledProcessError
| AttributeError
| TypeError
| ValueError
| ValidationError
| OtherException (name : string).

Record exn := mk_exn { exn_type : exn_class; exn_str : string }.

(** [type(e).__name__] *)
Definition exn_type_name (c : exn_class) : string :=
  match c with
  | FileNotFoundError => "FileNotFoundError"
  | JSONDecodeError => "JSONDecodeError"
  | ImportError => "ImportError"
  | ModuleNotFoundError => "ModuleNotFoundError"
  | CalledProcessError => "CalledProcessError"
  | AttributeError => "AttributeError"
  | TypeError => "TypeError"
  | ValueError => "ValueError"
  | ValidationError => "ValidationError"
  | OtherException name => name
  end.

(** The four [except C as e] clauses of the loader: does [e] match [C]? *)
Definition is_FileNotFoundError (e : exn) : bool :=
  match exn_type e with FileNotFoundError => true | _ => false end.
Definition is_JSONDecodeError (e : exn) : bool :=
  match exn_type e with JSONDecodeError => true | _ => false end.
Definition is_ImportError (e : exn) : bool :=
  match exn_type e with ImportError | ModuleNotFoundError => true | _ => false end.
Definition is_CalledProcessError (e : exn) : bool :=
  match exn_type e with CalledProcessError => true | _ => false end.

(** ** Observable events and the effect monad *)

Inductive level := DEBUG | INFO | WARNING | ERROR.

(** The parameters of one [tavily_client.search(...)] call. *)
Record SearchRequest := mk_SearchRequest {
  req_query : string;
  req_search_depth : string;
  req_include_answer : bool;
  req_max_results : Z;
  req_include_raw_content : bool
}.

Inductive event :=
| Log (lvl : level) (msg : string)
| TavilyClientNew (api_key : option string)
| TavilySearch (req : SearchRequest)
| UvicornRun (host : string) (port : Z).

(** How a computation ends: with a value, with a raised exception, or, for
    the one recursive function, out of stack depth. *)
Inductive outcome (A : Type) :=
| Ok (a : A)
| Raise (e : exn)
| OutOfFuel.
Arguments Ok {A} a.
Arguments Raise {A} e.
Arguments OutOfFuel {A}.

Definition M (A : Type) : Type := list event * outcome A.

Definition trace {A} (m : M A) : list event := fst m.
Definition result {A} (m : M A) : outcome A := snd m.

#[global] Instance M_ret : MRet M := λ A a, ([], Ok a).
#[global] Instance M_bind : MBind M := λ A B f m,
  match m with
  | (t, Ok a) => let '(t', r) := f a in (t ++ t', r)
  | (t, Raise e) => (t, Raise e)
  | (t, OutOfFuel) => (t, OutOfFuel)
  end.

Definition emit (ev : event) : M unit := ([ev], Ok tt).
Definition raise {A} (e : exn) : M A := ([], Raise e).
Definition out_of_fuel {A} : M A := ([], OutOfFuel).
Definition lift {A} (r : outcome A) : M A := ([], r).

(** [try: body except Exception as e: handler e] *)
Definition try_except {A} (body : M A) (handler : exn → M A) : M A :=
  match body with
  | (t, Raise e) => let '(t', r) := handler e in (t ++ t', r)
  | other => other
  end.

(** The logger is configured at level INFO: [logger.debug] evaluates its
    argument and emits nothing. *)
Definition logger_info (msg : string) : M unit := emit (Log INFO msg).
Definition logger_warning (msg : string) : M unit := emit (Log WARNING msg).
Definition logger_error (msg : string) : M unit := emit (Log ERROR msg).
Definition logger_debug (msg : string) : M unit := mret tt.

(** [for x in xs: ...] collecting the values of the body. *)
Fixpoint for_each {A B} (f : A → M B) (xs : list A) : M (list B) :=
  match xs with
  | [] => mret []
  | x :: xs' => b ← f x; bs ← for_each f xs'; mret (b :: bs)
  end.

(** ** Built-in operations on untyped values *)

(** [v.get(key, default)] *)
Definition py_get (v : pyval) (key : string) (dflt : pyval) : M pyval :=
  match v with
  | PyDict d => mret (default dflt (d !! key))
  | _ => raise (mk_exn AttributeError
                  ("'" +:+ py_type_name v +:+ "' object has no attribute 'get'"))
  end.

(** [len(v)] *)
Definition py_len (v : pyval) : M nat :=
  match v with
  | PyStr s => mret (PyStr.len s)
  | PyList l => mret (length l)
  | PyDict d => mret (size d)
  | _ => raise (mk_exn TypeError
                  ("object of type '" +:+ py_type_name v +:+ "' has no len()"))
  end.

(** The items [for x in v] goes through. *)
Definition py_iter (v : pyval) : M (list pyval) :=
  match v with
  | PyStr s => mret (PyStr <$> PyStr.chars s)
  | PyList l => mret l
  | PyDict d => mret (PyStr <$> (fst <$> map_to_list d))
  | _ => raise (mk_exn TypeError
                  ("'" +:+ py_type_name v +:+ "' object is not iterable"))
  end.

(** What a call into a collaborator does: return a value or throw. *)
Inductive call_result (A : Type) :=
| Returns (a : A)
| Throws (e : exn).
Arguments Returns {A} a.
Arguments Throws {A} e.

Definition call {A} (r : call_result A) : M A :=
  match r with
  | Returns a => mret a
  | Throws e => raise e
  end.

(** ** Tool-server configuration loader ([load_mcp_config], lines 66-106) *)

(** A tool-server handle built by [pydantic_ai.mcp.load_mcp_servers]: its
    class name and its optional [_name] attribute are all the module
    reads of it. *)
Record MCPServer := mk_MCPServer {
  server_class : string;
  server_name_attr : option string
}.

(** The file system, the JSON decoder and the construction routine the
    loader calls.  [os_path_exists] is the answer of [os.path.exists]
    throughout one call of the loader.  [open_read] is [open(path, 'r')]
    followed by the read that [json.load] performs; it is independent of
    [os_path_exists], so a file that cannot be opened although the test
    saw it is covered. *)
Record Host := mk_Host {
  os_path_exists : string → bool;
  open_read : string → call_result string;
  json_loads : string → call_result pyval;
  load_mcp_servers : string → call_result (list MCPServer)
}.

Definition fallback_path : string := "mcp_config_minimal.json".

(** Lines 70-80: the branch taken when the file exists. *)
Definition load_existing (h : Host) (config_path : string) : M (list MCPServer) :=
  logger_info ("Loading MCP configuration from " +:+ config_path);;
  text ← call (open_read h config_path);
  config_data ← call (json_loads h text);
  defs ← py_get config_data "mcpServers" (PyDict ∅);
  n ← py_len defs;
  logger_info ("Found " +:+ PyStr.of_nat n +:+ " MCP server definitions");;
  mcp_servers ← call (load_mcp_servers h config_path);
  logger_info ("✅ Successfully loaded " +:+ PyStr.of_nat (length mcp_servers)
               +:+ " MCP servers");;
  mret mcp_servers.

(** Lines 82-88: the branch taken when it does not; [self] is the
    function itself, for the retry with the fallback path. *)
Definition load_missing (self : string → M (list MCPServer))
    (h : Host) (config_path : string) : M (list MCPServer) :=
  logger_warning ("MCP config file " +:+ config_path +:+ " not found");;
  if negb (String.eqb config_path fallback_path) && os_path_exists h fallback_path
  then
    logger_info "Trying minimal config as fallback...";;
    self fallback_path
  else
    logger_warning "No MCP config found, proceeding with Tavily search only";;
    mret [].

(** Lines 89-106: the [except] clauses, tried in order. *)
Definition load_except (e : exn) : M (list MCPServer) :=
  if is_FileNotFoundError e then
    logger_error ("❌ MCP config file not found: " +:+ exn_str e);;
    mret []
  else if is_JSONDecodeError e then
    logger_error ("❌ Invalid JSON in MCP config: " +:+ exn_str e);;
    mret []
  else if is_ImportError e then
    logger_error ("❌ MCP dependencies not installed: " +:+ exn_str e);;
    logger_info "Install with: pip install 'pydantic-ai[mcp]'";;
    mret []
  else if is_CalledProcessError e then
    logger_error ("❌ MCP server subprocess failed: " +:+ exn_str e);;
    logger_info "Check that required tools (uvx, npx, deno) are installed";;
    mret []
  else
    logger_error ("❌ Failed to load MCP configuration: "
                  +:+ exn_type_name (exn_type e) +:+ ": " +:+ exn_str e);;
    logger_info "Continuing with Tavily search only...";;
    mret [].

Definition load_mcp_config_body (self : string → M (list MCPServer))
    (h : Host) (config_path : string) : M (list MCPServer) :=
  try_except
    (if os_path_exists h config_path
     then load_existing h config_path
     else load_missing self h config_path)
    load_except.

(** The function calls itself; [fuel] bounds the depth of nested calls. *)
Fixpoint load_mcp_config_fuel (fuel : nat) (h : Host) (config_path : string)
    : M (list MCPServer) :=
  match fuel with
  | O => out_of_fuel
  | S fuel' => load_mcp_config_body (load_mcp_config_fuel fuel' h) h config_path
  end.

(** The interpreter's default recursion limit. *)
Definition recursion_limit : nat := 1000.

Definition load_mcp_config (h : Host) (config_path : string) : M (list MCPServer) :=
  load_mcp_config_fuel recursion_limit h config_path.

(** How often the trace announces the retry with the fallback file. *)
Definition is_fallback_retry (ev : event) : bool :=
  match ev with
  | Log INFO msg => String.eqb msg "Trying minimal config as fallback..."
  | _ => false
  end.

Definition fallback_retries (t : list event) : nat :=
  length (filter (λ ev, is_fallback_retry ev = true) t).

(** ** Environment check and model selector (lines 43-59 and 122-147)

    [environ] is [os.environ] as it stands after [load_dotenv()] on line
    39; every read of the environment comes after that line. *)

(** [os.getenv(key)] and [os.getenv(key, default)] *)
Definition os_getenv (environ : gmap string string) (key : string) : option string :=
  environ !! key.
Definition os_getenv_or (environ : gmap string string) (key dflt : string) : string :=
  default dflt (environ !! key).

(** Truth value of what [os.getenv] returns: [None] and the empty string
    are false. *)
Definition getenv_truthy (v : option string) : bool :=
  match v with
  | Some s => negb (String.eqb s "")
  | None => false
  end.

(** Line 43. *)
Definition use_llm_farm (environ : gmap string string) : bool :=
  String.eqb (PyStr.lower (os_getenv_or environ "USE_LLM_FARM" "false")) "true".

Definition default_llm_farm_url : string :=
  "https://aoai-farm.bosch-temp.com/api/openai/deployments/askbosch-prod-farm-openai-gpt-4o-mini-2024-07-18/".

(** Lines 45-51. [llm_farm_url] is bound on the LLM Farm branch only, which
    is also the only branch that reads it. *)
Definition required_keys (environ : gmap string string) : list string :=
  if use_llm_farm environ
  then ["LLM_FARM_API_KEY"; "TAVILY_API_KEY"]
  else ["OPENAI_API_KEY"; "TAVILY_API_KEY"].

Definition llm_farm_url (environ : gmap string string) : string :=
  os_getenv_or environ "LLM_FARM_URL" default_llm_farm_url.

(** Line 53. *)
Definition missing_keys (environ : gmap string string) : list string :=
  filter (λ key, getenv_truthy (os_getenv environ key) = false) (required_keys environ).

(** Lines 45-59. *)
Definition check_environment (environ : gmap string string) : M unit :=
  (if use_llm_farm environ
   then logger_info "Using LLM Farm custom endpoint"
   else logger_info "Using standard OpenAI API");;
  (match missing_keys environ with
   | [] => mret tt
   | missing =>
       logger_error ("Missing required environment variables: "
                     +:+ PyStr.join ", " missing);;
       raise (mk_exn ValueError ("Missing required environment variables: "
                                 +:+ PyStr.join ", " missing))
   end);;
  logger_info "Environment variables loaded successfully".

(** The client of the OpenAI SDK as line 128 configures it. *)
Record AsyncOpenAI := mk_AsyncOpenAI {
  base_url : string;
  api_key : string;
  default_headers : list (string * option string);
  default_query : list (string * string)
}.

(** What [initialize_model] returns: a provider/model string, or a chat
    model bound to a client of its own. *)
Inductive ModelHandle :=
| ModelName (name : string)
| OpenAIChatModel (model_name : string) (openai_client : AsyncOpenAI).

(** Lines 122-145. *)
Definition initialize_model (environ : gmap string string) : M ModelHandle :=
  if use_llm_farm environ then
    logger_info "🔧 Configuring LLM Farm client...";;
    let llm_client :=
      {| base_url := llm_farm_url environ;
         api_key := "dummy";
         default_headers :=
           [("genaiplatform-farm-subscription-key", os_getenv environ "LLM_FARM_API_KEY")];
         default_query := [("api-version", "2024-08-01-preview")] |} in
    let model := OpenAIChatModel "gpt-4o-mini" llm_client in
    logger_info ("✓ LLM Farm client configured: " +:+ llm_farm_url environ);;
    mret model
  else
    logger_info "✓ Using standard OpenAI API: gpt-4o-mini";;
    mret (ModelName "openai:gpt-4o-mini").

(** ** Search adapter ([tavily_search], lines 150-163 and 232-301) *)

Record SearchResult := mk_SearchResult {
  title : string;
  url : string;
  content : string;
  score : float
}.

Record SearchResponse := mk_SearchResponse {
  query : string;
  results : list SearchResult;
  answer : option string
}.

(** What the adapter calls: the search client, the clock (already
    formatted by [strftime("%Y%m%d_%H%M%S_%f")]), and two parts of the
    validation library left open: which non-float values a [float] field
    accepts and as what, and the text of a validation error for a model
    class and its offending fields. *)
Record SearchHost := mk_SearchHost {
  tavily_client_search : SearchRequest → call_result pyval;
  datetime_now : string;
  lax_float : pyval → option float;
  validation_error_str : string → list (string * pyval) → string
}.

(** Field validation of the two [BaseModel] classes.  A [str] field takes
    a string and nothing else; a [float] field takes a float as it is;
    [Optional[str]] takes [None] besides. *)
Definition validate_str (v : pyval) : option string :=
  match v with
  | PyStr s => Some s
  | _ => None
  end.

Definition validate_float (sh : SearchHost) (v : pyval) : option float :=
  match v with
  | PyFloat f => Some f
  | _ => lax_float sh v
  end.

Definition validate_optional_str (v : pyval) : option (option string) :=
  match v with
  | PyNone => Some None
  | _ => Some <$> validate_str v
  end.

Definition invalid_field {A} (name : string) (v : pyval) (checked : option A)
    : list (string * pyval) :=
  match checked with
  | Some _ => []
  | None => [(name, v)]
  end.

(** [SearchResult(title=..., url=..., content=..., score=...)]: all fields
    are validated, and one error reports every field that failed. *)
Definition new_SearchResult (sh : SearchHost) (title url content score : pyval)
    : M SearchResult :=
  match validate_str title, validate_str url, validate_str content,
        validate_float sh score with
  | Some t, Some u, Some c, Some s => mret (mk_SearchResult t u c s)
  | vt, vu, vc, vs =>
      raise (mk_exn ValidationError
               (validation_error_str sh "SearchResult"
                  (invalid_field "title" title vt ++ invalid_field "url" url vu
                   ++ invalid_field "content" content vc
                   ++ invalid_field "score" score vs)))
  end.

(** [SearchResponse(query=..., results=..., answer=...)] where [query] is
    the tool's string argument and [results] a list of built
    [SearchResult]s: only [answer] can fail. *)
Definition new_SearchResponse (sh : SearchHost) (query : string)
    (results : list SearchResult) (answer : pyval) : M SearchResponse :=
  match validate_optional_str answer with
  | Some a => mret (mk_SearchResponse query results a)
  | None =>
      raise (mk_exn ValidationError
               (validation_error_str sh "SearchResponse" [("answer", answer)]))
  end.

(** Lines 253-259. *)
Definition search_request (query : string) : SearchRequest :=
  {| req_query := query;
     req_search_depth := "advanced";
     req_include_answer := true;
     req_max_results := 5;
     req_include_raw_content := true |}.

(** Lines 267-275, one round of the loop.  The [logger.debug] of line 275
    is below the configured level; its message is built from two more
    [get]s on [result], which is a dictionary by then, and is dropped. *)
Definition search_result_of (sh : SearchHost) (result : pyval) : M SearchResult :=
  t ← py_get result "title" (PyStr "");
  u ← py_get result "url" (PyStr "");
  c ← py_get result "content" (PyStr "");
  s ← py_get result "score" (PyFloat 0);
  search_res ← new_SearchResult sh t u c s;
  logger_debug "";;
  mret search_res.

(** Lines 249-287, the body of the [try]. *)
Definition tavily_search_try (sh : SearchHost) (request_id query : string)
    : M SearchResponse :=
  logger_info ("[" +:+ request_id +:+ "] Executing Tavily search...");;
  emit (TavilySearch (search_request query));;
  search_result ← call (tavily_client_search sh (search_request query));
  logger_info ("[" +:+ request_id +:+ "] Tavily search completed successfully");;
  found ← py_get search_result "results" (PyList []);
  n ← py_len found;
  logger_info ("[" +:+ request_id +:+ "] Found " +:+ PyStr.of_nat n +:+ " results");;
  listed ← py_get search_result "results" (PyList []);
  items ← py_iter listed;
  results ← for_each (search_result_of sh) items;
  ans ← py_get search_result "answer" (PyStr "");
  response ← new_SearchResponse sh query results ans;
  logger_info ("[" +:+ request_id +:+ "] ✅ TOOL SUCCESS: tavily_search returned "
               +:+ PyStr.of_nat (length results) +:+ " results");;
  (* Lines 284-285 read the raw answer again; having passed validation it
     is [None] or the string now held in [response]. *)
  (match answer response with
   | Some a =>
       if negb (String.eqb a "")
       then logger_info ("[" +:+ request_id +:+ "] AI Answer available: "
                         +:+ PyStr.slice_to 100 a +:+ "...")
       else mret tt
   | None => mret tt
   end);;
  mret response.

(** Lines 289-301, the [except Exception as e] clause. *)
Definition tavily_search_except (sh : SearchHost) (request_id query : string)
    (e : exn) : M SearchResponse :=
  logger_error ("[" +:+ request_id +:+ "] ❌ TOOL ERROR: tavily_search failed with error: "
                +:+ exn_str e);;
  logger_error ("[" +:+ request_id +:+ "] Error details: "
                +:+ exn_type_name (exn_type e) +:+ ": " +:+ exn_str e);;
  error_response ← new_SearchResponse sh query [] (PyStr ("Search failed: " +:+ exn_str e));
  logger_info ("[" +:+ request_id +:+ "] Returning error response to user");;
  mret error_response.

(** Lines 233-301.  The worker-thread dispatch of lines 250-260 is awaited
    at once, so the call is sequential here. *)
Definition tavily_search (sh : SearchHost) (query : string) : M SearchResponse :=
  let request_id := datetime_now sh in
  logger_info ("[" +:+ request_id +:+ "] 🔍 TOOL CALLED: tavily_search");;
  logger_info ("[" +:+ request_id +:+ "] Query: '" +:+ query +:+ "'");;
  try_except (tavily_search_try sh request_id query)
             (tavily_search_except sh request_id query).

(** ** Module initialisation and the two entry points *)

(** Lines 112-118. *)
Definition server_display_name (server : MCPServer) : string :=
  default (server_class server) (server_name_attr server).

Definition log_mcp_servers (mcp_servers : list MCPServer) : M unit :=
  match mcp_servers with
  | [] => logger_info "📝 No MCP servers loaded - only Tavily search will be available"
  | _ =>
      logger_info "🔧 Available MCP toolsets:";;
      for_each (λ '(i, server),
                  logger_info ("  " +:+ PyStr.of_nat i +:+ ". "
                               +:+ server_display_name server))
               (zip (seq 1 (length mcp_servers)) mcp_servers);;
      mret tt
  end.

(** What the module binds while it is imported. *)
Record AgentModule := mk_AgentModule {
  mod_mcp_servers : list MCPServer;
  mod_model : ModelHandle
}.

(** Lines 347-376, run when [agent.py] is the program. *)
Definition agent_main_block (environ : gmap string string)
    (mcp_servers : list MCPServer) : M unit :=
  logger_info (PyStr.repeat "=" 60);;
  logger_info "🚀 Starting Enhanced Pydantic AI Agent";;
  logger_info (PyStr.repeat "=" 60);;
  logger_info "📝 Logging enabled - check agent.log for detailed logs";;
  logger_info ("🤖 Model: " +:+ (if use_llm_farm environ
                                 then "LLM Farm (Custom)" else "OpenAI GPT-4o-mini"));;
  logger_info "🔧 Built-in tools: tavily_search";;
  (match mcp_servers with
   | [] => logger_info "📝 No MCP servers - only built-in tools available"
   | _ =>
       logger_info "🔧 MCP servers loaded - additional tools available";;
       logger_info "   Check /tools endpoint to see all available tools"
   end);;
  logger_info "🌐 Server starting on http://0.0.0.0:8000";;
  logger_info "🔗 AG-UI endpoint: http://0.0.0.0:8000/";;
  logger_info "ℹ️  Tools endpoint: http://0.0.0.0:8000/tools";;
  (if use_llm_farm environ
   then logger_info "⚙️  Environment: Set LLM_FARM_API_KEY and TAVILY_API_KEY"
   else logger_info "⚙️  Environment: Set OPENAI_API_KEY and TAVILY_API_KEY");;
  logger_info (PyStr.repeat "=" 60);;
  emit (UvicornRun "0.0.0.0" 8000).

(** The top-level statements of [agent.py] in order; [is_main] says
    whether the file is run as the program or imported.  Building the
    agent, the ASGI application and the middleware binds no socket and
    leaves no event. *)
Definition agent_module (h : Host) (environ : gmap string string) (is_main : bool)
    : M AgentModule :=
  check_environment environ;;
  emit (TavilyClientNew (os_getenv environ "TAVILY_API_KEY"));;
  logger_info "Tavily client initialized";;
  mcp_servers ← load_mcp_config h "mcp_config.json";
  log_mcp_servers mcp_servers;;
  model ← initialize_model environ;
  logger_info "🤖 Pydantic AI agent initialized with GPT-4o-mini";;
  logger_info ("🔧 Total toolsets available: "
               +:+ PyStr.of_nat (length mcp_servers + 1) +:+ " (Tavily + "
               +:+ PyStr.of_nat (length mcp_servers) +:+ " MCP servers)");;
  logger_info "AG-UI compatible ASGI application created with request logging middleware";;
  (if is_main then agent_main_block environ mcp_servers else mret tt);;
  mret (mk_AgentModule mcp_servers model).

(** [main.py]: import the module, then serve. *)
Definition main_py (h : Host) (environ : gmap string string) : M unit :=
  agent_module h environ false;;
  logger_info (PyStr.repeat "=" 60);;
  logger_info "🚀 Starting Kubernetes AI Chatbot";;
  logger_info (PyStr.repeat "=" 60);;
  logger_info "📝 Logging enabled - check agent.log for detailed logs";;
  logger_info "🤖 Agent with Tavily search + Kubernetes MCP tools";;
  logger_info "🌐 Server starting on http://0.0.0.0:8000";;
  logger_info "🔗 AG-UI endpoint: http://0.0.0.0:8000/";;
  logger_info "ℹ️  Tools endpoint: http://0.0.0.0:8000/tools";;
  logger_info "⚙️  Configure .env with your API keys";;
  logger_info (PyStr.repeat "=" 60);;
  emit (UvicornRun "0.0.0.0" 8000).

(** Did the run reach [uvicorn.run], the only place a socket is bound? *)
Definition is_bind (ev : event) : bool :=
  match ev with
  | UvicornRun _ _ => true
  | _ => false
  end.

Definition binds_server (t : list event) : bool := existsb is_bind t.

(** ** Request logging middleware ([RequestLoggingMiddleware.dispatch],
       lines 313-340) *)

(** What the middleware reads of a request; [req_body] is what
    [await request.body()] does, the bytes received or an exception. *)
Record Request := mk_Request {
  req_method : string;
  req_url_path : string;
  req_headers : list (string * string);
  req_body : call_result string
}.

Record Response := mk_Response {
  status_code : Z;
  resp_content : string
}.

(** The clock and the library routines the middleware calls: the two
    readings of [time.time()], the formatted [datetime.now()], the text of
    [dict(request.headers)], [bytes.decode()], [json.loads],
    [json.dumps(_, indent=2)] and the [:.2f] format of a float. *)
Record WebHost := mk_WebHost {
  time_start : float;
  time_end : float;
  web_now : string;
  headers_str : list (string * string) → string;
  bytes_decode : string → call_result string;
  web_json_loads : string → call_result pyval;
  json_dumps_indent2 : pyval → call_result string;
  format_2f : float → string
}.

(** Lines 323-331: the body of a POST request is logged, as indented JSON
    if it parses, else as its first 500 characters.  The bare [except]
    decodes the bytes a second time, outside any [try]. *)
Definition log_request_body (wh : WebHost) (request_id : string) (request : Request)
    : M unit :=
  if String.eqb (req_method request) "POST" then
    body ← call (req_body request);
    if negb (String.eqb body "") then
      try_except
        (text ← call (bytes_decode wh body);
         body_json ← call (web_json_loads wh text);
         dumped ← call (json_dumps_indent2 wh body_json);
         logger_info ("[" +:+ request_id +:+ "] Request body: " +:+ dumped))
        (λ _,
           raw ← call (bytes_decode wh body);
           logger_info ("[" +:+ request_id +:+ "] Request body (raw): "
                        +:+ PyStr.slice_to 500 raw +:+ "..."))
    else mret tt
  else mret tt.

(** Lines 314-340. *)
Definition dispatch (wh : WebHost) (request : Request)
    (call_next : Request → call_result Response) : M Response :=
  let start_time := time_start wh in
  let request_id := web_now wh in
  logger_info ("[" +:+ request_id +:+ "] 📨 INCOMING REQUEST: "
               +:+ req_method request +:+ " " +:+ req_url_path request);;
  logger_info ("[" +:+ request_id +:+ "] Headers: "
               +:+ headers_str wh (req_headers request));;
  log_request_body wh request_id request;;
  response ← call (call_next request);
  let process_time := (time_end wh - start_time)%float in
  logger_info ("[" +:+ request_id +:+ "] 📤 RESPONSE: "
               +:+ pretty (status_code response) +:+ " (took "
               +:+ format_2f wh process_time +:+ "s)");;
  mret response.

(** ** Concrete hosts used to run the definitions *)

Module Samples.

Definition kube : MCPServer := mk_MCPServer "MCPServerStdio" (Some "kubernetes").
Definition fetch : MCPServer := mk_MCPServer "MCPServerStdio" None.

(** Only the fallback file is there; it holds one server definition. *)
Definition fallback_only : Host :=
  {| os_path_exists := λ p, String.eqb p "mcp_config_minimal.json";
     open_read := λ p,
       if String.eqb p "mcp_config_minimal.json" then Returns "{...}"
       else Throws (mk_exn FileNotFoundError ("[Errno 2] No such file or directory: '" +:+ p +:+ "'"));
     json_loads := λ _,
       Returns (PyDict {[ "mcpServers" := PyDict {[ "kubernetes" := PyDict ∅ ]} ]});
     load_mcp_servers := λ _, Returns [kube] |}.

(** No configuration file at all. *)
Definition no_files : Host :=
  {| os_path_exists := λ _, false;
     open_read := λ p, Throws (mk_exn FileNotFoundError p);
     json_loads := λ _, Throws (mk_exn JSONDecodeError "Expecting value: line 1 column 1 (char 0)");
     load_mcp_servers := λ _, Returns [] |}.

(** The primary file is there and is not JSON. *)
Definition bad_json : Host :=
  {| os_path_exists := λ _, true;
     open_read := λ _, Returns "";
     json_loads := λ _, Throws (mk_exn JSONDecodeError "Expecting value: line 1 column 1 (char 0)");
     load_mcp_servers := λ _, Returns [kube; fetch] |}.

Definition item_fields (t u c : string) (s : float) : gmap string pyval :=
  {[ "title" := PyStr t; "url" := PyStr u; "content" := PyStr c; "score" := PyFloat s ]}.

Definition item (t u c : string) (s : float) : pyval := PyDict (item_fields t u c s).

(** A provider that answers with three items, the second without any
    field, and an answer string. *)
Definition items3 : list pyval :=
  [item "A" "http://a" "aa" 0.75; PyDict ∅; item "C" "http://c" "cc" 0.5].

Definition response3 : gmap string pyval :=
  {[ "results" := PyList items3; "answer" := PyStr "Qubits." ]}.

Definition three_items : SearchHost :=
  {| tavily_client_search := λ _, Returns (PyDict response3);
     datetime_now := "20240101_120000_000000";
     lax_float := λ _, None;
     validation_error_str := λ cls _, "1 validation error for " +:+ cls |}.

(** A provider that fails to connect. *)
Definition unreachable : SearchHost :=
  {| tavily_client_search := λ _, Throws (mk_exn (OtherException "ConnectionError") "boom");
     datetime_now := "20240101_120000_000000";
     lax_float := λ _, None;
     validation_error_str := λ cls _, "1 validation error for " +:+ cls |}.

Definition farm_without_url : gmap string string :=
  {[ "USE_LLM_FARM" := "True"; "LLM_FARM_API_KEY" := "k"; "TAVILY_API_KEY" := "t" ]}.

Definition openai_without_tavily : gmap string string :=
  {[ "OPENAI_API_KEY" := "sk" ]}.

Definition farm_without_tavily : gmap string string :=
  {[ "USE_LLM_FARM" := "true"; "LLM_FARM_API_KEY" := "k";
     "LLM_FARM_URL" := "https://farm.example/" ]}.

Definition openai_env : gmap string string :=
  {[ "USE_LLM_FARM" := "yes"; "OPENAI_API_KEY" := "sk"; "TAVILY_API_KEY" := "t" ]}.

(** The primary file holds a JSON array instead of an object. *)
Definition json_array : Host :=
  {| os_path_exists := λ _, true;
     open_read := λ _, Returns "[]";
     json_loads := λ _, Returns (PyList []);
     load_mcp_servers := λ _, Returns [kube] |}.

(** A provider whose single item is a number, not a dictionary. *)
Definition malformed_item : SearchHost :=
  {| tavily_client_search := λ _, Returns (PyDict {[ "results" := PyList [PyInt 5] ]});
     datetime_now := "20240101_120000_000000";
     lax_float := λ _, None;
     validation_error_str := λ cls _, "1 validation error for " +:+ cls |}.

(** The primary file holds text that is not JSON; the fallback file is
    there and would load. *)
Definition broken_primary : Host :=
  {| os_path_exists := λ _, true;
     open_read := λ p, if String.eqb p "mcp_config.json" then Returns "{" else Returns "{}";
     json_loads := λ text,
       if String.eqb text "{}" then Returns (PyDict ∅)
       else Throws (mk_exn JSONDecodeError "Expecting property name: line 1 column 2 (char 1)");
     load_mcp_servers := λ _, Returns [kube] |}.

Definition search_host (response : call_result pyval) : SearchHost :=
  {| tavily_client_search := λ _, response;
     datetime_now := "20240101_120000_000000";
     lax_float := λ _, None;
     validation_error_str := λ cls _, "1 validation error for " +:+ cls |}.

(** The primary file is a JSON object without [mcpServers]. *)
Definition no_servers_key : Host :=
  {| os_path_exists := λ _, true;
     open_read := λ _, Returns "{}";
     json_loads := λ _, Returns (PyDict ∅);
     load_mcp_servers := λ _, Returns [] |}.

(** A web host whose decoder rejects the single byte 0xff and whose JSON
    decoder accepts the text of the empty object only. *)
Definition web : WebHost :=
  {| time_start := 1;
     time_end := 1.25;
     web_now := "20240101_120000_000000";
     headers_str := λ _, "{}";
     bytes_decode := λ b,
       if String.eqb b (String (Ascii.ascii_of_N 255) EmptyString)
       then Throws (mk_exn (OtherException "UnicodeDecodeError")
                      "'utf-8' codec can't decode byte 0xff in position 0: invalid start byte")
       else Returns b;
     web_json_loads := λ text,
       if String.eqb text "{}" then Returns (PyDict ∅)
       else Throws (mk_exn JSONDecodeError "Expecting value: line 1 column 1 (char 0)");
     json_dumps_indent2 := λ _, Returns "{}";
     format_2f := λ _, "0.25" |}.

Definition post (body : string) : Request :=
  {| req_method := "POST"; req_url_path := "/"; req_headers := [];
     req_body := Returns body |}.

Definition ok_handler : Request → call_result Response :=
  λ _, Returns (mk_Response 200 "ok").

End Samples.

(** ** Vocabulary of the statements *)

(** A computation does not exhaust the stack; it ends with a value. *)
Definition terminates {A} (m : M A) : Prop := result m ≠ OutOfFuel.
Definition returns {A} (m : M A) : Prop := ∃ a, result m = Ok a.

(** Every event of the trace satisfies [P]. *)
Definition all_events {A} (P : event → Prop) (m : M A) : Prop := Forall P (trace m).

Definition not_retry (ev : event) : Prop := is_fallback_retry ev = false.

(** The search calls of a trace, in order. *)
Definition provider_calls (t : list event) : list SearchRequest :=
  omap (λ ev, match ev with TavilySearch req => Some req | _ => None end) t.

Definition is_search (ev : event) : bool :=
  match ev with TavilySearch _ => true | _ => false end.

Definition not_search (ev : event) : Prop := is_search ev = false.

(** A field of a provider item and the value it is mapped to.  A text
    field holds a string, or is missing and stands for the empty string;
    the score holds a value the [float] field accepts (a float is accepted
    as it is), or is missing and stands for 0.0. *)
Definition str_field (d : gmap string pyval) (key s : string) : Prop :=
  d !! key = Some (PyStr s) ∨ (d !! key = None ∧ s = "").

Definition float_field (sh : SearchHost) (d : gmap string pyval) (key : string)
    (f : float) : Prop :=
  (∃ v, d !! key = Some v ∧ validate_float sh v = Some f)
  ∨ (d !! key = None ∧ f = 0%float).

Definition item_maps_to (sh : SearchHost) (item : pyval) (r : SearchResult) : Prop :=
  ∃ d, item = PyDict d
       ∧ str_field d "title" (title r) ∧ str_field d "url" (url r)
       ∧ str_field d "content" (content r) ∧ float_field sh d "score" (score r).

(** A well-formed provider item: a dictionary whose four fields, where
    present, are accepted by the fields of [SearchResult]. *)
Definition provider_item (sh : SearchHost) (item : pyval) : Prop :=
  ∃ r, item_maps_to sh item r.

(** The response of the [except] clause for an exception with text [msg]. *)
Definition failure_response (q msg : string) : SearchResponse :=
  mk_SearchResponse q [] (Some ("Search failed: " +:+ msg)).

(** The sixteen ways of writing [true] in upper and lower case. *)
Definition true_spellings : list string :=
  ["true"; "truE"; "trUe"; "trUE"; "tRue"; "tRuE"; "tRUe"; "tRUE";
   "True"; "TruE"; "TrUe"; "TrUE"; "TRue"; "TRuE"; "TRUe"; "TRUE"].

(** The text of the [ValueError] raised on line 57. *)
Definition missing_message (environ : gmap string string) : string :=
  "Missing required environment variables: " +:+ PyStr.join ", " (missing_keys environ).

(** The model handle [initialize_model] builds for an environment. *)
Definition selected_model (environ : gmap string string) : ModelHandle :=
  if use_llm_farm environ then
    OpenAIChatModel "gpt-4o-mini"
      {| base_url := llm_farm_url environ;
         api_key := "dummy";
         default_headers :=
           [("genaiplatform-farm-subscription-key", os_getenv environ "LLM_FARM_API_KEY")];
         default_query := [("api-version", "2024-08-01-preview")] |}
  else ModelName "openai:gpt-4o-mini".

(** ** Vocabulary of the further properties *)

(** The file the loader reads for a path: the path itself if it exists,
    else the fallback file if that one exists. *)
Definition resolved_path (h : Host) (config_path : string) : option string :=
  if os_path_exists h config_path then Some config_path
  else if os_path_exists h fallback_path then Some fallback_path
  else None.

(** Values [len] accepts. *)
Definition py_sized (v : pyval) : bool :=
  match v with
  | PyStr _ | PyList _ | PyDict _ => true
  | _ => false
  end.

(** The servers built from one file when it opens, parses to an object
    whose [mcpServers] entry, if any, has a length, and the construction
    routine returns. *)
Definition constructed (h : Host) (file : string) : option (list MCPServer) :=
  match open_read h file with
  | Returns text =>
      match json_loads h text with
      | Returns (PyDict d) =>
          if py_sized (default (PyDict ∅) (d !! "mcpServers")) then
            match load_mcp_servers h file with
            | Returns servers => Some servers
            | Throws _ => None
            end
          else None
      | _ => None
      end
  | Throws _ => None
  end.

Definition registry_of (h : Host) (config_path : string) : list MCPServer :=
  match resolved_path h config_path with
  | Some file => default [] (constructed h file)
  | None => []
  end.

Definition is_error (ev : event) : bool :=
  match ev with Log ERROR _ => true | _ => false end.

Definition not_error (ev : event) : Prop := is_error ev = false.

Definition error_records (t : list event) : nat :=
  length (filter (λ ev, is_error ev = true) t).

Definition is_log (ev : event) : bool :=
  match ev with Log _ _ => true | _ => false end.

Definition log_event (ev : event) : Prop := is_log ev = true.

(** A log record whose message starts with the bracketed identifier. *)
Definition tagged (request_id : string) (ev : event) : Prop :=
  match ev with
  | Log _ msg => String.prefix ("[" +:+ request_id +:+ "] ") msg = true
  | _ => True
  end.

(** A required key that is unset or set to the empty string. *)
Definition key_unusable (environ : gmap string string) (key : string) : Prop :=
  environ !! key = None ∨ environ !! key = Some "".

(** The variables the module reads, which depend on the backend. *)
Definition variables_read (environ : gmap string string) : list string :=
  if use_llm_farm environ
  then ["USE_LLM_FARM"; "LLM_FARM_API_KEY"; "TAVILY_API_KEY"; "LLM_FARM_URL"]
  else ["USE_LLM_FARM"; "OPENAI_API_KEY"; "TAVILY_API_KEY"].

(** Two environments that agree on those variables. *)
Definition same_variables (environ environ' : gmap string string) : Prop :=
  ∀ key, key ∈ variables_read environ → environ !! key = environ' !! key.

(** The events at which a Tavily client is built, a server is started. *)
Definition client_keys (t : list event) : list (option string) :=
  omap (λ ev, match ev with TavilyClientNew k => Some k | _ => None end) t.

Definition server_starts (t : list event) : list (string * Z) :=
  omap (λ ev, match ev with UvicornRun host port => Some (host, port) | _ => None end) t.

(** What the middleware hands back for what the next handler does. *)
Definition handler_outcome (r : call_result Response) : outcome Response :=
  match r with
  | Returns response => Ok response
  | Throws e => Raise e
  end.

(** Nothing stands between the request and the next handler: the request
    is not a POST, or its body arrived and is empty or decodes. *)
Definition body_readable (wh : WebHost) (request : Request) : Prop :=
  req_method request ≠ "POST"
  ∨ ∃ body, req_body request = Returns body
            ∧ (body = "" ∨ ∃ text, bytes_decode wh body = Returns text).

(** The line logged for the server at position [i] of the registry. *)
Definition server_line (i : nat) (server : MCPServer) : event :=
  Log INFO ("  " +:+ PyStr.of_nat (S i) +:+ ". " +:+ server_display_name server).

(** * Properties *)

(** ** How computations in [M] end *)


Section MonadFacts.
Context {A B : Type}.
Implicit Types (m : M A) (f : A → M B).

Lemma result_bind m f :
  result (m ≫= f) =
  match result m with
  | Ok a => result (f a)
  | Raise e => Raise e
  | OutOfFuel => OutOfFuel
  end.
Proof. destruct m as [t [a|e|]]; cbn; [destruct (f a)|..]; reflexivity. Qed.

Lemma trace_bind m f :
  trace (m ≫= f) =
  trace m ++ match result m with Ok a => trace (f a) | _ => [] end.
Proof.
  destruct m as [t [a|e|]]; cbn; [destruct (f a)|..]; cbn;
    rewrite ?app_nil_r; reflexivity.
Qed.

Lemma bind_Ok_inv m f b :
  result (m ≫= f) = Ok b → ∃ a, result m = Ok a ∧ result (f a) = Ok b.
Proof.
  rewrite result_bind. destruct (result m) as [a|e|]; [eauto|discriminate..].
Qed.

Lemma terminates_bind m f :
  terminates m → (∀ a, terminates (f a)) → terminates (m ≫= f).
Proof.
  unfold terminates. rewrite result_bind. intros Hm Hf.
  destruct (result m); [apply Hf|discriminate|contradiction].
Qed.

Lemma returns_bind m f :
  returns m → (∀ a, returns (f a)) → returns (m ≫= f).
Proof.
  unfold returns. rewrite result_bind. intros [a ->] Hf. apply Hf.
Qed.
End MonadFacts.

Section TryFacts.
Context {A : Type}.
Implicit Types (body : M A) (handler : exn → M A).

Lemma result_try_except body handler :
  result (try_except body handler) =
  match result body with
  | Raise e => result (handler e)
  | other => other
  end.
Proof.
  destruct body as [t [a|e|]]; cbn; [|destruct (handler e)|]; reflexivity.
Qed.

Lemma trace_try_except body handler :
  trace (try_except body handler) =
  trace body ++ match result body with Raise e => trace (handler e) | _ => [] end.
Proof.
  destruct body as [t [a|e|]]; cbn; [|destruct (handler e)|]; cbn;
    rewrite ?app_nil_r; reflexivity.
Qed.

Lemma try_except_returns body handler :
  terminates body → (∀ e, returns (handler e)) → returns (try_except body handler).
Proof.
  unfold terminates, returns. rewrite result_try_except. intros Hb Hh.
  destruct (result body) as [a|e|]; [eauto|apply Hh|contradiction].
Qed.
End TryFacts.

Lemma terminates_mret {A} (a : A) : terminates (mret a : M A).
Proof. discriminate. Qed.
Lemma terminates_emit ev : terminates (emit ev).
Proof. discriminate. Qed.
Lemma terminates_raise {A} e : terminates (raise e : M A).
Proof. discriminate. Qed.
Lemma terminates_call {A} (r : call_result A) : terminates (call r).
Proof. destruct r; discriminate. Qed.
Lemma terminates_py_get v key dflt : terminates (py_get v key dflt).
Proof. destruct v; discriminate. Qed.
Lemma terminates_py_len v : terminates (py_len v).
Proof. destruct v; discriminate. Qed.
Lemma terminates_py_iter v : terminates (py_iter v).
Proof. destruct v; discriminate. Qed.
Lemma terminates_returns {A} (m : M A) : returns m → terminates m.
Proof. intros [a Ha]. unfold terminates. rewrite Ha. discriminate. Qed.

Lemma terminates_for_each {A B} (f : A → M B) xs :
  (∀ x, terminates (f x)) → terminates (for_each f xs).
Proof.
  intros Hf. induction xs as [|x xs IH]; cbn [for_each].
  - apply terminates_mret.
  - apply terminates_bind; [apply Hf|intros b].
    apply terminates_bind; [apply IH|intros bs]. apply terminates_mret.
Qed.

Create HintDb ends.
#[local] Hint Resolve terminates_mret terminates_emit terminates_raise
  terminates_call terminates_py_get terminates_py_len terminates_py_iter : ends.
#[local] Hint Extern 1 (terminates (logger_info _)) => apply terminates_emit : ends.
#[local] Hint Extern 1 (terminates (logger_warning _)) => apply terminates_emit : ends.
#[local] Hint Extern 1 (terminates (logger_error _)) => apply terminates_emit : ends.
#[local] Hint Extern 1 (terminates (logger_debug _)) => apply terminates_mret : ends.

(** Peel one bind after the other off a goal [terminates _]. *)
Ltac ends :=
  repeat first
    [ solve [auto with ends]
    | apply terminates_bind; [|intros ?] ].

(** ** The loader *)

Lemma load_except_result e : result (load_except e) = Ok [].
Proof.
  unfold load_except.
  destruct (is_FileNotFoundError e), (is_JSONDecodeError e),
    (is_ImportError e), (is_CalledProcessError e); reflexivity.
Qed.

Lemma load_existing_terminates h p : terminates (load_existing h p).
Proof. unfold load_existing. ends. Qed.

Lemma load_body_result_cases self h p :
  terminates (self fallback_path) →
  returns (load_mcp_config_body self h p).
Proof.
  intros Hself. unfold load_mcp_config_body.
  apply try_except_returns.
  - destruct (os_path_exists h p); [apply load_existing_terminates|].
    unfold load_missing.
    destruct (negb (p =? fallback_path)%string && os_path_exists h fallback_path); ends.
  - intros e. exists []. apply load_except_result.
Qed.

(** *** What the traces contain *)


Section EventFacts.
Context (P : event → Prop).

Lemma all_events_bind {A B} (m : M A) (f : A → M B) :
  all_events P m → (∀ a, all_events P (f a)) → all_events P (m ≫= f).
Proof.
  unfold all_events. rewrite trace_bind. intros Hm Hf.
  apply Forall_app. split; [exact Hm|].
  destruct (result m); [apply Hf|constructor..].
Qed.

Lemma all_events_try {A} (body : M A) handler :
  all_events P body → (∀ e, all_events P (handler e)) →
  all_events P (try_except body handler).
Proof.
  unfold all_events. rewrite trace_try_except. intros Hb Hh.
  apply Forall_app. split; [exact Hb|].
  destruct (result body); [constructor|apply Hh|constructor].
Qed.

Lemma all_events_mret {A} (a : A) : all_events P (mret a : M A).
Proof. constructor. Qed.
Lemma all_events_raise {A} e : all_events P (raise e : M A).
Proof. constructor. Qed.
Lemma all_events_call {A} (r : call_result A) : all_events P (call r).
Proof. destruct r; constructor. Qed.
Lemma all_events_py_get v key dflt : all_events P (py_get v key dflt).
Proof. destruct v; constructor. Qed.
Lemma all_events_py_len v : all_events P (py_len v).
Proof. destruct v; constructor. Qed.
Lemma all_events_py_iter v : all_events P (py_iter v).
Proof. destruct v; constructor. Qed.
Lemma all_events_emit ev : P ev → all_events P (emit ev).
Proof. intros H. repeat constructor. exact H. Qed.

Lemma all_events_for_each {A B} (f : A → M B) xs :
  (∀ x, all_events P (f x)) → all_events P (for_each f xs).
Proof.
  intros Hf. induction xs as [|x xs IH]; cbn [for_each].
  - apply all_events_mret.
  - apply all_events_bind; [apply Hf|intros b].
    apply all_events_bind; [apply IH|intros bs]. apply all_events_mret.
Qed.
End EventFacts.

Create HintDb evs.
#[local] Hint Resolve all_events_mret all_events_raise all_events_call
  all_events_py_get all_events_py_len all_events_py_iter : evs.
#[local] Hint Extern 1 (all_events _ (logger_info _)) =>
  apply all_events_emit; reflexivity : evs.
#[local] Hint Extern 1 (all_events _ (logger_warning _)) =>
  apply all_events_emit; reflexivity : evs.
#[local] Hint Extern 1 (all_events _ (logger_error _)) =>
  apply all_events_emit; reflexivity : evs.
#[local] Hint Extern 1 (all_events _ (logger_debug _)) => apply all_events_mret : evs.

Ltac events :=
  repeat first
    [ solve [auto with evs]
    | apply all_events_bind; [|intros ?] ].


Lemma fallback_retries_app t1 t2 :
  fallback_retries (t1 ++ t2) = fallback_retries t1 + fallback_retries t2.
Proof. unfold fallback_retries. rewrite filter_app. apply length_app. Qed.

Lemma fallback_retries_none t : Forall not_retry t → fallback_retries t = 0.
Proof.
  unfold fallback_retries, not_retry.
  induction 1 as [|ev t Hev _ IH]; [reflexivity|].
  rewrite filter_cons. destruct (decide _) as [Heq|_]; [congruence|exact IH].
Qed.

Lemma load_existing_no_retry h p : all_events not_retry (load_existing h p).
Proof. unfold load_existing. events. Qed.

Lemma load_except_no_retry e : all_events not_retry (load_except e).
Proof.
  unfold load_except.
  destruct (is_FileNotFoundError e), (is_JSONDecodeError e),
    (is_ImportError e), (is_CalledProcessError e); events.
Qed.

(** *** The recursion *)

Lemma load_body_at_fallback self self' h :
  load_mcp_config_body self h fallback_path = load_mcp_config_body self' h fallback_path.
Proof.
  unfold load_mcp_config_body, load_missing.
  rewrite String.eqb_refl. reflexivity.
Qed.

Lemma load_body_ext self self' h p :
  self fallback_path = self' fallback_path →
  load_mcp_config_body self h p = load_mcp_config_body self' h p.
Proof.
  intros Heq. unfold load_mcp_config_body, load_missing. rewrite Heq. reflexivity.
Qed.

Lemma load_fuel_stable n h p :
  load_mcp_config_fuel (S (S n)) h p = load_mcp_config_fuel 2 h p.
Proof. cbn [load_mcp_config_fuel]. apply load_body_ext, load_body_at_fallback. Qed.

Lemma load_mcp_config_fuel_2 h p : load_mcp_config h p = load_mcp_config_fuel 2 h p.
Proof.
  unfold load_mcp_config. change recursion_limit with (S (S 998)).
  apply load_fuel_stable.
Qed.

Lemma load_fuel_1_fallback_returns h :
  returns (load_mcp_config_fuel 1 h fallback_path).
Proof.
  cbn [load_mcp_config_fuel].
  rewrite (load_body_at_fallback _ (λ _, mret [])).
  apply load_body_result_cases, terminates_mret.
Qed.

Lemma load_fuel_2_returns h p : returns (load_mcp_config_fuel 2 h p).
Proof.
  change (load_mcp_config_fuel 2 h p)
    with (load_mcp_config_body (load_mcp_config_fuel 1 h) h p).
  apply load_body_result_cases, terminates_returns, load_fuel_1_fallback_returns.
Qed.

Lemma load_mcp_config_returns h p : returns (load_mcp_config h p).
Proof. rewrite load_mcp_config_fuel_2. apply load_fuel_2_returns. Qed.

Lemma load_fuel_1_fallback_no_retry h :
  all_events not_retry (load_mcp_config_fuel 1 h fallback_path).
Proof.
  cbn [load_mcp_config_fuel]. unfold load_mcp_config_body, load_missing.
  rewrite String.eqb_refl. cbn [negb andb].
  apply all_events_try; [|apply load_except_no_retry].
  destruct (os_path_exists h fallback_path); [apply load_existing_no_retry|events].
Qed.

(** *** The three ways through the function *)

Lemma load_when_exists h p :
  os_path_exists h p = true →
  load_mcp_config h p = try_except (load_existing h p) load_except.
Proof.
  intros Hp. rewrite load_mcp_config_fuel_2. cbn [load_mcp_config_fuel].
  unfold load_mcp_config_body at 1. rewrite Hp. reflexivity.
Qed.

Lemma exists_differ h p :
  os_path_exists h p = false → os_path_exists h fallback_path = true →
  (p =? fallback_path)%string = false.
Proof.
  intros Hp Hfb. destruct (String.eqb_spec p fallback_path) as [-> | ]; congruence.
Qed.

Lemma load_at_fallback h :
  load_mcp_config h fallback_path = load_mcp_config_fuel 1 h fallback_path.
Proof.
  rewrite load_mcp_config_fuel_2. cbn [load_mcp_config_fuel].
  apply load_body_at_fallback.
Qed.

Lemma load_when_fallback h p :
  os_path_exists h p = false → os_path_exists h fallback_path = true →
  load_mcp_config h p =
  try_except
    (logger_warning ("MCP config file " +:+ p +:+ " not found");;
     logger_info "Trying minimal config as fallback...";;
     load_mcp_config h fallback_path)
    load_except.
Proof.
  intros Hp Hfb. rewrite load_at_fallback, (load_mcp_config_fuel_2 h p).
  change (load_mcp_config_fuel 2 h p)
    with (load_mcp_config_body (load_mcp_config_fuel 1 h) h p).
  unfold load_mcp_config_body, load_missing.
  rewrite Hp, Hfb, (exists_differ h p Hp Hfb). reflexivity.
Qed.

Lemma load_when_nothing h p :
  os_path_exists h p = false →
  p = fallback_path ∨ os_path_exists h fallback_path = false →
  load_mcp_config h p =
  ([Log WARNING ("MCP config file " +:+ p +:+ " not found");
    Log WARNING "No MCP config found, proceeding with Tavily search only"], Ok []).
Proof.
  intros Hp Hno. rewrite load_mcp_config_fuel_2.
  change (load_mcp_config_fuel 2 h p)
    with (load_mcp_config_body (load_mcp_config_fuel 1 h) h p).
  unfold load_mcp_config_body, load_missing. rewrite Hp.
  destruct Hno as [-> | ->]; [rewrite String.eqb_refl|rewrite andb_false_r]; reflexivity.
Qed.

(** A retry with the fallback file ends the way loading that file ends,
    after two more log records. *)
Lemma load_fallback_same h p :
  os_path_exists h p = false → os_path_exists h fallback_path = true →
  result (load_mcp_config h p) = result (load_mcp_config h fallback_path) ∧
  trace (load_mcp_config h p) =
    [Log WARNING ("MCP config file " +:+ p +:+ " not found");
     Log INFO "Trying minimal config as fallback..."]
    ++ trace (load_mcp_config h fallback_path).
Proof.
  intros Hp Hfb. rewrite (load_when_fallback h p Hp Hfb).
  destruct (load_mcp_config_returns h fallback_path) as [servers Hs].
  destruct (load_mcp_config h fallback_path) as [t r]. cbn in Hs. subst r.
  split; reflexivity.
Qed.

(** *** Failures of the steps *)

Lemma call_Ok_inv {A} (r : call_result A) a : result (call r) = Ok a → r = Returns a.
Proof. destruct r; cbn; congruence. Qed.

Lemma load_existing_Ok_inv h p servers :
  result (load_existing h p) = Ok servers →
  ∃ text config_data,
    open_read h p = Returns text ∧
    json_loads h text = Returns config_data ∧
    load_mcp_servers h p = Returns servers.
Proof.
  unfold load_existing. intros H.
  apply bind_Ok_inv in H as (_ & _ & H).
  apply bind_Ok_inv in H as (text & Htext & H).
  apply bind_Ok_inv in H as (config_data & Hcfg & H).
  apply bind_Ok_inv in H as (defs & _ & H).
  apply bind_Ok_inv in H as (n & _ & H).
  apply bind_Ok_inv in H as (_ & _ & H).
  apply bind_Ok_inv in H as (mcp_servers & Hload & H).
  apply bind_Ok_inv in H as (_ & _ & H).
  cbn in H. injection H as <-.
  exists text, config_data.
  auto using call_Ok_inv.
Qed.

Lemma load_existing_failed h p e :
  os_path_exists h p = true →
  result (load_existing h p) = Raise e →
  result (load_mcp_config h p) = Ok [].
Proof.
  intros Hp He. rewrite (load_when_exists h p Hp), result_try_except, He.
  apply load_except_result.
Qed.

Lemma load_existing_not_Ok h p :
  os_path_exists h p = true →
  (∀ servers, result (load_existing h p) ≠ Ok servers) →
  result (load_mcp_config h p) = Ok [].
Proof.
  intros Hp Hno. pose proof (load_existing_terminates h p) as Hterm.
  unfold terminates in Hterm.
  destruct (result (load_existing h p)) as [servers| e |] eqn:He.
  - destruct (Hno servers). reflexivity.
  - eauto using load_existing_failed.
  - contradiction.
Qed.

(** C1. For every path argument, [load_mcp_config] returns a registry and
    never raises (nor exhausts the stack).  Whenever loading the file that
    is read fails -- the given file, or the fallback file taken in its
    place -- the registry is empty; in particular when the file cannot be
    opened, when its text is not JSON, and when the construction routine
    throws (missing dependencies, subprocess failure or anything else). *)
Theorem load_mcp_config_never_raises (h : Host) (config_path : string) :
  (∃ servers, result (load_mcp_config h config_path) = Ok servers)
  ∧ (∀ e, os_path_exists h config_path = true →
          result (load_existing h config_path) = Raise e →
          result (load_mcp_config h config_path) = Ok [])
  ∧ (∀ e, os_path_exists h config_path = false →
          os_path_exists h fallback_path = true →
          result (load_existing h fallback_path) = Raise e →
          result (load_mcp_config h config_path) = Ok [])
  ∧ (∀ e, os_path_exists h config_path = true →
          open_read h config_path = Throws e →
          result (load_mcp_config h config_path) = Ok [])
  ∧ (∀ text e, os_path_exists h config_path = true →
          open_read h config_path = Returns text →
          json_loads h text = Throws e →
          result (load_mcp_config h config_path) = Ok [])
  ∧ (∀ e, os_path_exists h config_path = true →
          load_mcp_servers h config_path = Throws e →
          result (load_mcp_config h config_path) = Ok []).
Proof.
  split; [apply load_mcp_config_returns|].
  split; [intros e; apply load_existing_failed|].
  split.
  { intros e Hp Hfb He.
    destruct (load_fallback_same h config_path Hp Hfb) as [-> _].
    eauto using load_existing_failed. }
  split; [|split].
  - intros e Hp Hopen. apply load_existing_not_Ok; [exact Hp|].
    intros servers Hok. apply load_existing_Ok_inv in Hok as (? & ? & ? & _).
    congruence.
  - intros text e Hp Hopen Hjson. apply load_existing_not_Ok; [exact Hp|].
    intros servers Hok. apply load_existing_Ok_inv in Hok as (? & ? & ? & ? & _).
    congruence.
  - intros e Hp Hload. apply load_existing_not_Ok; [exact Hp|].
    intros servers Hok. apply load_existing_Ok_inv in Hok as (? & ? & _ & _ & ?).
    congruence.
Qed.

(** The primary file exists and is not JSON: the registry is empty. *)
Lemma load_mcp_config_never_raises_witness :
  result (load_mcp_config Samples.bad_json "mcp_config.json") = Ok [].
Proof.
  destruct (load_mcp_config_never_raises Samples.bad_json "mcp_config.json")
    as (_ & _ & _ & _ & Hjson & _).
  apply (Hjson "" (mk_exn JSONDecodeError "Expecting value: line 1 column 1 (char 0)"));
    reflexivity.
Defined.

(** C3. If the primary configuration path does not exist while the
    fallback file [mcp_config_minimal.json] exists and loads successfully,
    [load_mcp_config] returns the registry obtained from the fallback
    file: the servers the construction routine built from it, which is
    also what loading the fallback file directly returns. *)
Theorem load_mcp_config_uses_fallback (h : Host) (config_path : string)
    (servers : list MCPServer) :
  os_path_exists h config_path = false →
  os_path_exists h fallback_path = true →
  result (load_existing h fallback_path) = Ok servers →
  result (load_mcp_config h config_path) = Ok servers
  ∧ load_mcp_servers h fallback_path = Returns servers
  ∧ result (load_mcp_config h config_path) = result (load_mcp_config h fallback_path).
Proof.
  intros Hp Hfb Hok.
  destruct (load_fallback_same h config_path Hp Hfb) as [Hsame _].
  rewrite Hsame, (load_when_exists h fallback_path Hfb), result_try_except, Hok.
  apply load_existing_Ok_inv in Hok as (? & ? & _ & _ & ?). auto.
Qed.

(** Only the fallback file is present: its one server is returned. *)
Lemma load_mcp_config_uses_fallback_witness :
  result (load_mcp_config Samples.fallback_only "mcp_config.json") = Ok [Samples.kube].
Proof.
  apply (load_mcp_config_uses_fallback Samples.fallback_only "mcp_config.json"
           [Samples.kube]); reflexivity.
Defined.

Lemma load_fuel_1_out_of_fuel h p :
  result (load_mcp_config_fuel 1 h p) = OutOfFuel ↔
  os_path_exists h p = false ∧ p ≠ fallback_path
  ∧ os_path_exists h fallback_path = true.
Proof.
  cbn [load_mcp_config_fuel]. unfold load_mcp_config_body. split.
  - intros Hout.
    destruct (os_path_exists h p) eqn:Hp.
    { destruct (try_except_returns (load_existing h p) load_except) as [a Ha].
      - apply load_existing_terminates.
      - intros e. exists []. apply load_except_result.
      - congruence. }
    unfold load_missing in Hout.
    destruct (String.eqb_spec p fallback_path) as [->|Hne];
      [discriminate Hout|].
    destruct (os_path_exists h fallback_path); [auto|discriminate Hout].
  - intros (Hp & Hne & Hfb). unfold load_missing.
    rewrite Hp, Hfb. apply String.eqb_neq in Hne. rewrite Hne. reflexivity.
Qed.

Lemma load_mcp_config_retries h p :
  fallback_retries (trace (load_mcp_config h p)) ≤ 1.
Proof.
  destruct (os_path_exists h p) eqn:Hp.
  - rewrite (load_when_exists h p Hp), fallback_retries_none; [lia|].
    apply all_events_try; [apply load_existing_no_retry|apply load_except_no_retry].
  - destruct (os_path_exists h fallback_path) eqn:Hfb.
    + destruct (load_fallback_same h p Hp Hfb) as [_ ->].
      rewrite fallback_retries_app, load_at_fallback.
      rewrite (fallback_retries_none (trace _));
        [reflexivity|apply load_fuel_1_fallback_no_retry].
    + rewrite (load_when_nothing h p Hp); [|auto].
      cbn [trace fst]. rewrite fallback_retries_none; [lia|].
      repeat constructor.
Qed.

(** C4. For every path argument, [load_mcp_config] terminates after at
    most one fallback substitution: two levels of calls are enough
    whatever the host and the path (more depth changes nothing), the
    second level being entered exactly when the given path is absent, is
    not the fallback path, and the fallback file exists; the retry is
    announced at most once.  When both the given path and the fallback
    file are absent the registry is empty. *)
Theorem load_mcp_config_one_fallback (h : Host) (config_path : string) :
  (∀ n, load_mcp_config_fuel (2 + n) h config_path = load_mcp_config h config_path)
  ∧ (∃ servers, result (load_mcp_config h config_path) = Ok servers)
  ∧ (result (load_mcp_config_fuel 1 h config_path) = OutOfFuel ↔
     os_path_exists h config_path = false ∧ config_path ≠ fallback_path
     ∧ os_path_exists h fallback_path = true)
  ∧ fallback_retries (trace (load_mcp_config h config_path)) ≤ 1
  ∧ (os_path_exists h config_path = false →
     os_path_exists h fallback_path = false →
     result (load_mcp_config h config_path) = Ok []).
Proof.
  split.
  { intros n. rewrite load_mcp_config_fuel_2. apply load_fuel_stable. }
  split; [apply load_mcp_config_returns|].
  split; [apply load_fuel_1_out_of_fuel|].
  split; [apply load_mcp_config_retries|].
  intros Hp Hfb. rewrite (load_when_nothing h config_path Hp); auto.
Qed.

(** Neither file is present: [load_mcp_config("missing.json")] is []. *)
Lemma load_mcp_config_one_fallback_witness :
  result (load_mcp_config Samples.no_files "missing.json") = Ok [].
Proof.
  destruct (load_mcp_config_one_fallback Samples.no_files "missing.json")
    as (_ & _ & _ & _ & Habsent).
  apply Habsent; reflexivity.
Defined.

(** ** The search adapter *)

Lemma bind_result_Ok {A B} (m : M A) (f : A → M B) a :
  result m = Ok a → result (m ≫= f) = result (f a).
Proof. intros H. rewrite result_bind, H. reflexivity. Qed.

Lemma bind_result_Raise {A B} (m : M A) (f : A → M B) e :
  result m = Raise e → result (m ≫= f) = Raise e.
Proof. intros H. rewrite result_bind, H. reflexivity. Qed.

Lemma tavily_search_except_result sh rid q e :
  result (tavily_search_except sh rid q e) =
  Ok (mk_SearchResponse q [] (Some ("Search failed: " +:+ exn_str e))).
Proof. reflexivity. Qed.

Lemma terminates_new_SearchResult sh t u c s : terminates (new_SearchResult sh t u c s).
Proof.
  unfold new_SearchResult.
  destruct (validate_str t), (validate_str u), (validate_str c),
    (validate_float sh s); discriminate.
Qed.

Lemma terminates_new_SearchResponse sh q rs a : terminates (new_SearchResponse sh q rs a).
Proof. unfold new_SearchResponse. destruct (validate_optional_str a); discriminate. Qed.

#[local] Hint Resolve terminates_new_SearchResult terminates_new_SearchResponse : ends.

Lemma terminates_search_result_of sh item : terminates (search_result_of sh item).
Proof. unfold search_result_of. ends. Qed.

Lemma tavily_search_try_terminates sh rid q : terminates (tavily_search_try sh rid q).
Proof.
  unfold tavily_search_try. ends.
  - apply terminates_for_each, terminates_search_result_of.
  - destruct (answer _) as [ans|]; [destruct (negb _)|]; ends.
Qed.

Lemma tavily_search_result sh q :
  result (tavily_search sh q) =
  match result (tavily_search_try sh (datetime_now sh) q) with
  | Ok resp => Ok resp
  | Raise e => Ok (mk_SearchResponse q [] (Some ("Search failed: " +:+ exn_str e)))
  | OutOfFuel => OutOfFuel
  end.
Proof.
  unfold tavily_search.
  rewrite (bind_result_Ok _ _ tt) by reflexivity.
  rewrite (bind_result_Ok _ _ tt) by reflexivity.
  rewrite result_try_except.
  destruct (result (tavily_search_try _ _ _)); reflexivity.
Qed.

Lemma tavily_search_returns sh q : returns (tavily_search sh q).
Proof.
  unfold returns. rewrite tavily_search_result.
  pose proof (tavily_search_try_terminates sh (datetime_now sh) q) as Hterm.
  unfold terminates in Hterm.
  destruct (result (tavily_search_try _ _ _)); [eauto..|contradiction].
Qed.

Lemma new_SearchResponse_query sh q rs a resp :
  result (new_SearchResponse sh q rs a) = Ok resp → query resp = q ∧ results resp = rs.
Proof.
  unfold new_SearchResponse. destruct (validate_optional_str a); cbn; [|discriminate].
  intros [= <-]. auto.
Qed.

Lemma tavily_search_try_query sh rid q resp :
  result (tavily_search_try sh rid q) = Ok resp → query resp = q.
Proof.
  unfold tavily_search_try. intros H.
  repeat (apply bind_Ok_inv in H as (? & ? & H)).
  cbn in H. injection H as <-.
  eapply new_SearchResponse_query; eassumption.
Qed.

(** C2. For every query string, when the provider call throws,
    [tavily_search] returns a response with an empty result list and the
    answer "Search failed: " followed by the exception's message; and
    whatever the provider does, [tavily_search] returns a response: no
    exception reaches the caller. *)
Theorem tavily_search_total (sh : SearchHost) (q : string) :
  (∃ resp, result (tavily_search sh q) = Ok resp)
  ∧ (∀ e, tavily_client_search sh (search_request q) = Throws e →
          ∃ resp, result (tavily_search sh q) = Ok resp
                  ∧ results resp = []
                  ∧ answer resp = Some ("Search failed: " +:+ exn_str e)).
Proof.
  split; [apply tavily_search_returns|].
  intros e Hcall. eexists. split.
  { rewrite tavily_search_result. unfold tavily_search_try.
    rewrite (bind_result_Ok _ _ tt) by reflexivity.
    rewrite (bind_result_Ok _ _ tt) by reflexivity.
    rewrite (bind_result_Raise _ _ e) by (rewrite Hcall; reflexivity).
    reflexivity. }
  split; reflexivity.
Qed.

(** [search("x")] against a provider that cannot connect. *)
Lemma tavily_search_total_witness :
  ∃ resp, result (tavily_search Samples.unreachable "x") = Ok resp
          ∧ results resp = [] ∧ answer resp = Some "Search failed: boom".
Proof.
  destruct (tavily_search_total Samples.unreachable "x") as [_ Hfail].
  apply (Hfail (mk_exn (OtherException "ConnectionError") "boom")). reflexivity.
Defined.

(** C5. For every query string and every provider outcome, the response
    returned by [tavily_search] has its [query] field equal to the input
    query. *)
Theorem tavily_search_echoes_query (sh : SearchHost) (q : string) :
  ∃ resp, result (tavily_search sh q) = Ok resp ∧ query resp = q.
Proof.
  destruct (tavily_search_returns sh q) as [resp Hresp].
  exists resp. split; [exact Hresp|].
  rewrite tavily_search_result in Hresp.
  destruct (result (tavily_search_try _ _ _)) as [r|e|] eqn:Htry; [|..|discriminate].
  - injection Hresp as <-. eapply tavily_search_try_query, Htry.
  - injection Hresp as <-. reflexivity.
Qed.

(** *** The success path *)

Lemma str_field_get d key s :
  str_field d key s → default (PyStr "") (d !! key) = PyStr s.
Proof. intros [-> | [-> ->]]; reflexivity. Qed.

Lemma float_field_get sh d key f :
  float_field sh d key f →
  validate_float sh (default (PyFloat 0) (d !! key)) = Some f.
Proof. intros [(v & -> & Hv) | [-> ->]]; [exact Hv|reflexivity]. Qed.

Lemma search_result_of_ok sh item r :
  item_maps_to sh item r → search_result_of sh item = ([], Ok r).
Proof.
  intros (d & -> & Ht & Hu & Hc & Hs).
  unfold search_result_of, py_get.
  rewrite (str_field_get _ _ _ Ht), (str_field_get _ _ _ Hu), (str_field_get _ _ _ Hc).
  cbn [mbind M_bind mret M_ret app]. unfold new_SearchResult.
  rewrite (float_field_get _ _ _ _ Hs). destruct r; reflexivity.
Qed.

Lemma for_each_search_result_of sh items :
  Forall (provider_item sh) items →
  ∃ rs, for_each (search_result_of sh) items = ([], Ok rs)
        ∧ Forall2 (item_maps_to sh) items rs.
Proof.
  induction 1 as [|item items [r Hr] _ (rs & Hrs & Hall)].
  - exists []. split; [reflexivity|constructor].
  - exists (r :: rs). split; [|constructor; assumption].
    cbn [for_each]. rewrite (search_result_of_ok sh item r Hr), Hrs. reflexivity.
Qed.

(** Conversely, an entry is only ever built from a well-formed item. *)
Lemma validate_str_field d key s :
  validate_str (default (PyStr "") (d !! key)) = Some s → str_field d key s.
Proof.
  unfold str_field. destruct (d !! key) as [v|]; cbn [default].
  - destruct v; cbn; intros [= <-]. left. reflexivity.
  - intros [= <-]. right. auto.
Qed.

Lemma validate_float_field sh d key f :
  validate_float sh (default (PyFloat 0) (d !! key)) = Some f → float_field sh d key f.
Proof.
  unfold float_field. destruct (d !! key) as [v|]; cbn [default].
  - intros Hv. left. eauto.
  - intros [= <-]. right. auto.
Qed.

Lemma new_SearchResult_Ok_inv sh t u c s r :
  result (new_SearchResult sh t u c s) = Ok r →
  validate_str t = Some (title r) ∧ validate_str u = Some (url r)
  ∧ validate_str c = Some (content r) ∧ validate_float sh s = Some (score r).
Proof.
  unfold new_SearchResult.
  destruct (validate_str t), (validate_str u), (validate_str c),
    (validate_float sh s); cbn; try discriminate.
  intros [= <-]. auto.
Qed.

Lemma search_result_of_Ok_inv sh item r :
  result (search_result_of sh item) = Ok r → item_maps_to sh item r.
Proof.
  destruct item as [| | | | | |d]; try discriminate.
  unfold search_result_of. intros H.
  apply bind_Ok_inv in H as (t & [= <-] & H).
  apply bind_Ok_inv in H as (u & [= <-] & H).
  apply bind_Ok_inv in H as (c & [= <-] & H).
  apply bind_Ok_inv in H as (s & [= <-] & H).
  apply bind_Ok_inv in H as (r' & Hnew & H). cbn in H. injection H as <-.
  apply new_SearchResult_Ok_inv in Hnew as (Ht & Hu & Hc & Hs).
  exists d. split; [reflexivity|].
  auto using validate_str_field, validate_float_field.
Qed.

Lemma for_each_Ok_inv {A B} (f : A → M B) xs bs :
  result (for_each f xs) = Ok bs → Forall2 (λ x b, result (f x) = Ok b) xs bs.
Proof.
  revert bs. induction xs as [|x xs IH]; cbn [for_each]; intros bs H.
  - cbn in H. injection H as <-. constructor.
  - apply bind_Ok_inv in H as (b & Hb & H).
    apply bind_Ok_inv in H as (bs' & Hbs & H).
    cbn in H. injection H as <-. constructor; auto.
Qed.

Lemma tavily_search_try_results sh rid q d items resp :
  tavily_client_search sh (search_request q) = Returns (PyDict d) →
  d !! "results" = Some (PyList items) →
  result (tavily_search_try sh rid q) = Ok resp →
  Forall2 (item_maps_to sh) items (results resp).
Proof.
  intros Hcall Hresults. unfold tavily_search_try. rewrite Hcall. intros H.
  apply bind_Ok_inv in H as (_ & _ & H).
  apply bind_Ok_inv in H as (_ & _ & H).
  apply bind_Ok_inv in H as (sr & [= <-] & H).
  apply bind_Ok_inv in H as (_ & _ & H).
  unfold py_get in H at 1 2. rewrite Hresults in H. cbn [default] in H.
  apply bind_Ok_inv in H as (found & _ & H).
  apply bind_Ok_inv in H as (n & _ & H).
  apply bind_Ok_inv in H as (_ & _ & H).
  apply bind_Ok_inv in H as (listed & [= <-] & H).
  apply bind_Ok_inv in H as (its & [= <-] & H).
  apply bind_Ok_inv in H as (rs & Hrs & H).
  apply bind_Ok_inv in H as (ans & _ & H).
  apply bind_Ok_inv in H as (response & Hresp & H).
  apply bind_Ok_inv in H as (_ & _ & H).
  apply bind_Ok_inv in H as (_ & _ & H).
  cbn in H. injection H as <-.
  apply new_SearchResponse_query in Hresp as [_ ->].
  apply for_each_Ok_inv in Hrs.
  eapply Forall2_impl; [exact Hrs|]. cbn. auto using search_result_of_Ok_inv.
Qed.

(** C6. When the provider returns a response whose [results] list holds
    K items, each a dictionary whose fields are accepted where present,
    [tavily_search] returns a response with exactly K entries in the
    provider's order, each entry holding the item's title, url, content
    and score, with the empty string (0.0 for the score) for a field the
    item lacks; the answer is the provider's answer string, or the empty
    string if the provider omitted it.  Whatever the items are, a returned
    response either has these K entries or is the failure response. *)
Theorem tavily_search_maps_results (sh : SearchHost) (q : string)
    (d : gmap string pyval) (items : list pyval) :
  tavily_client_search sh (search_request q) = Returns (PyDict d) →
  d !! "results" = Some (PyList items) →
  (∀ ans, Forall (provider_item sh) items →
          str_field d "answer" ans →
          ∃ resp, result (tavily_search sh q) = Ok resp
                  ∧ length (results resp) = length items
                  ∧ Forall2 (item_maps_to sh) items (results resp)
                  ∧ answer resp = Some ans
                  ∧ query resp = q)
  ∧ (∀ resp, result (tavily_search sh q) = Ok resp →
             (length (results resp) = length items
              ∧ Forall2 (item_maps_to sh) items (results resp))
             ∨ ∃ msg, resp = failure_response q msg).
Proof.
  intros Hcall Hresults. split.
  - intros ans Hitems Hans.
    destruct (for_each_search_result_of sh items Hitems) as (rs & Hrs & Hall).
    exists (mk_SearchResponse q rs (Some ans)).
    split; [|split; [symmetry; eapply Forall2_length, Hall|auto]].
    rewrite tavily_search_result. unfold tavily_search_try.
    rewrite (bind_result_Ok _ _ tt) by reflexivity.
    rewrite (bind_result_Ok _ _ tt) by reflexivity.
    rewrite Hcall.
    rewrite (bind_result_Ok _ _ (PyDict d)) by reflexivity.
    rewrite (bind_result_Ok _ _ tt) by reflexivity.
    unfold py_get. rewrite Hresults, (str_field_get _ _ _ Hans). cbn [default].
    rewrite (bind_result_Ok _ _ (PyList items)) by reflexivity.
    rewrite (bind_result_Ok _ _ (length items)) by reflexivity.
    rewrite (bind_result_Ok _ _ tt) by reflexivity.
    rewrite (bind_result_Ok _ _ (PyList items)) by reflexivity.
    rewrite (bind_result_Ok _ _ items) by reflexivity.
    rewrite (bind_result_Ok _ _ rs) by (rewrite Hrs; reflexivity).
    rewrite (bind_result_Ok _ _ (PyStr ans)) by reflexivity.
    rewrite (bind_result_Ok _ _ (mk_SearchResponse q rs (Some ans))) by reflexivity.
    rewrite (bind_result_Ok _ _ tt) by reflexivity.
    rewrite (bind_result_Ok _ _ tt)
      by (cbn [answer]; destruct (negb _); reflexivity).
    reflexivity.
  - intros resp. rewrite tavily_search_result.
    destruct (result (tavily_search_try _ _ _)) as [r|e|] eqn:Htry; [|..|discriminate].
    + intros [= <-]. left.
      pose proof (tavily_search_try_results _ _ _ _ _ _ Hcall Hresults Htry) as Hall.
      split; [symmetry; eapply Forall2_length, Hall|exact Hall].
    + intros [= <-]. right. exists (exn_str e). reflexivity.
Qed.

(** [search("quantum computing")] against a provider that returns three
    items, the second one without fields, and an answer string. *)
Lemma tavily_search_maps_results_witness :
  ∃ resp, result (tavily_search Samples.three_items "quantum computing") = Ok resp
          ∧ length (results resp) = length Samples.items3
          ∧ Forall2 (item_maps_to Samples.three_items) Samples.items3 (results resp)
          ∧ answer resp = Some "Qubits."
          ∧ query resp = "quantum computing".
Proof.
  destruct (tavily_search_maps_results Samples.three_items "quantum computing"
              Samples.response3 Samples.items3) as [Hmaps _].
  - reflexivity.
  - vm_compute. reflexivity.
  - apply Hmaps.
    + repeat constructor.
      * exists (mk_SearchResult "A" "http://a" "aa" 0.75),
          (Samples.item_fields "A" "http://a" "aa" 0.75).
        repeat split; left; [..|eexists; split]; vm_compute; reflexivity.
      * exists (mk_SearchResult "" "" "" 0), ∅.
        repeat split; right; split; reflexivity.
      * exists (mk_SearchResult "C" "http://c" "cc" 0.5),
          (Samples.item_fields "C" "http://c" "cc" 0.5).
        repeat split; left; [..|eexists; split]; vm_compute; reflexivity.
    + left. vm_compute. reflexivity.
Defined.

(** *** The call into the provider *)

Lemma provider_calls_app t1 t2 :
  provider_calls (t1 ++ t2) = provider_calls t1 ++ provider_calls t2.
Proof. apply omap_app. Qed.

Lemma provider_calls_none t : Forall not_search t → provider_calls t = [].
Proof.
  induction 1 as [|ev t Hev _ IH]; [reflexivity|].
  destruct ev; try discriminate Hev; exact IH.
Qed.

Lemma new_SearchResult_quiet sh t u c s :
  all_events not_search (new_SearchResult sh t u c s).
Proof.
  unfold new_SearchResult.
  destruct (validate_str t), (validate_str u), (validate_str c),
    (validate_float sh s); constructor.
Qed.

Lemma new_SearchResponse_quiet sh q rs a :
  all_events not_search (new_SearchResponse sh q rs a).
Proof. unfold new_SearchResponse. destruct (validate_optional_str a); constructor. Qed.

#[local] Hint Resolve new_SearchResult_quiet new_SearchResponse_quiet : evs.

Lemma search_result_of_quiet sh item : all_events not_search (search_result_of sh item).
Proof. unfold search_result_of. events. Qed.

Lemma tavily_search_except_quiet sh rid q e :
  all_events not_search (tavily_search_except sh rid q e).
Proof. unfold tavily_search_except. events. Qed.

Lemma trace_emit_then {A} ev (m : M A) : trace (emit ev ;; m) = ev :: trace m.
Proof. rewrite trace_bind. reflexivity. Qed.

Lemma trace_info_then {A} msg (m : M A) :
  trace (logger_info msg ;; m) = Log INFO msg :: trace m.
Proof. apply trace_emit_then. Qed.

Lemma provider_calls_log lvl msg t : provider_calls (Log lvl msg :: t) = provider_calls t.
Proof. reflexivity. Qed.

Lemma provider_calls_search req t :
  provider_calls (TavilySearch req :: t) = req :: provider_calls t.
Proof. reflexivity. Qed.

Lemma tavily_search_try_calls sh rid q :
  provider_calls (trace (tavily_search_try sh rid q)) = [search_request q].
Proof.
  unfold tavily_search_try.
  rewrite trace_info_then, provider_calls_log, trace_emit_then, provider_calls_search.
  f_equal. apply provider_calls_none.
  match goal with |- Forall _ (trace ?m) => change (all_events not_search m) end.
  events.
  - apply all_events_for_each, search_result_of_quiet.
  - destruct (answer _) as [ans'|]; [destruct (negb _)|]; events.
Qed.

(** C7. For every query, [tavily_search] calls the provider exactly once,
    with the query and the fixed parameters: search depth "advanced",
    answer requested, at most 5 results, raw content requested. *)
Theorem tavily_search_fixed_parameters (sh : SearchHost) (q : string) :
  provider_calls (trace (tavily_search sh q)) =
  [ {| req_query := q;
       req_search_depth := "advanced";
       req_include_answer := true;
       req_max_results := 5;
       req_include_raw_content := true |} ].
Proof.
  unfold tavily_search.
  rewrite !trace_info_then, !provider_calls_log.
  rewrite trace_try_except, provider_calls_app, tavily_search_try_calls.
  rewrite (provider_calls_none (match _ with Raise e => _ | _ => [] end)).
  - reflexivity.
  - destruct (result _); [constructor|apply tavily_search_except_quiet|constructor].
Qed.

(** ** Start-up *)

Lemma missing_keys_spec environ key :
  key ∈ missing_keys environ ↔
  key ∈ required_keys environ ∧ getenv_truthy (os_getenv environ key) = false.
Proof. unfold missing_keys. rewrite list_elem_of_filter. tauto. Qed.

Lemma tavily_key_always_required environ : "TAVILY_API_KEY" ∈ required_keys environ.
Proof. unfold required_keys. destruct (use_llm_farm environ); set_solver. Qed.

Lemma check_environment_raises environ :
  missing_keys environ ≠ [] →
  check_environment environ =
  ([Log INFO (if use_llm_farm environ then "Using LLM Farm custom endpoint"
              else "Using standard OpenAI API");
    Log ERROR (missing_message environ)],
   Raise (mk_exn ValueError (missing_message environ))).
Proof.
  intros Hne. unfold check_environment, missing_message.
  destruct (missing_keys environ); [contradiction|].
  destruct (use_llm_farm environ); reflexivity.
Qed.

Lemma check_environment_passes environ :
  missing_keys environ = [] →
  check_environment environ =
  ([Log INFO (if use_llm_farm environ then "Using LLM Farm custom endpoint"
              else "Using standard OpenAI API");
    Log INFO "Environment variables loaded successfully"], Ok tt).
Proof.
  intros Hnone. unfold check_environment. rewrite Hnone.
  destruct (use_llm_farm environ); reflexivity.
Qed.

Lemma agent_module_aborts h environ is_main :
  missing_keys environ ≠ [] →
  ∃ t, agent_module h environ is_main
       = (t, Raise (mk_exn ValueError (missing_message environ)))
       ∧ binds_server t = false.
Proof.
  intros Hne. unfold agent_module. rewrite (check_environment_raises environ Hne).
  eexists. split; reflexivity.
Qed.

Lemma main_py_aborts h environ :
  missing_keys environ ≠ [] →
  ∃ t, main_py h environ = (t, Raise (mk_exn ValueError (missing_message environ)))
       ∧ binds_server t = false.
Proof.
  intros Hne. unfold main_py, agent_module.
  rewrite (check_environment_raises environ Hne).
  eexists. split; reflexivity.
Qed.

Lemma missing_key_nonempty environ key :
  key ∈ required_keys environ →
  getenv_truthy (os_getenv environ key) = false →
  missing_keys environ ≠ [].
Proof.
  intros Hreq Hfalse Hnil.
  assert (key ∈ missing_keys environ) as Hin by (apply missing_keys_spec; auto).
  rewrite Hnil in Hin. set_solver.
Qed.

(** C8. Whichever model backend is selected, start-up requires
    TAVILY_API_KEY: if it is absent from the environment, the module's
    initialisation raises a [ValueError] naming it among the missing
    variables, and the run ends there, both when [agent.py] is the program
    and when [main.py] imports it, without having reached [uvicorn.run]. *)
Theorem tavily_key_required (h : Host) (environ : gmap string string) :
  os_getenv environ "TAVILY_API_KEY" = None →
  "TAVILY_API_KEY" ∈ missing_keys environ
  ∧ (∀ is_main, ∃ t, agent_module h environ is_main
                     = (t, Raise (mk_exn ValueError (missing_message environ)))
                     ∧ binds_server t = false)
  ∧ (∃ t, main_py h environ
          = (t, Raise (mk_exn ValueError (missing_message environ)))
          ∧ binds_server t = false).
Proof.
  intros Habsent.
  assert (getenv_truthy (os_getenv environ "TAVILY_API_KEY") = false) as Hfalse
    by (rewrite Habsent; reflexivity).
  pose proof (tavily_key_always_required environ) as Hreq.
  pose proof (missing_key_nonempty environ _ Hreq Hfalse) as Hne.
  split; [apply missing_keys_spec; auto|].
  split; [intros is_main; apply agent_module_aborts, Hne|apply main_py_aborts, Hne].
Qed.

(** Both backends, each with its own key present and the search key
    absent. *)
Lemma tavily_key_required_witness :
  (∃ t e, agent_module Samples.no_files Samples.openai_without_tavily true = (t, Raise e)
          ∧ binds_server t = false)
  ∧ (∃ t e, agent_module Samples.no_files Samples.farm_without_tavily true = (t, Raise e)
            ∧ binds_server t = false).
Proof.
  split.
  - destruct (tavily_key_required Samples.no_files Samples.openai_without_tavily)
      as (_ & Hmod & _); [reflexivity|].
    destruct (Hmod true) as (t & Ht). eauto.
  - destruct (tavily_key_required Samples.no_files Samples.farm_without_tavily)
      as (_ & Hmod & _); [reflexivity|].
    destruct (Hmod true) as (t & Ht). eauto.
Defined.

(** *** A start-up that goes through *)

Lemma returns_for_each {A B} (f : A → M B) xs :
  (∀ x, returns (f x)) → returns (for_each f xs).
Proof.
  intros Hf. induction xs as [|x xs IH]; cbn [for_each].
  - exists []. reflexivity.
  - apply returns_bind; [apply Hf|intros b].
    apply returns_bind; [apply IH|intros bs]. eexists. reflexivity.
Qed.

Lemma returns_emit ev : returns (emit ev).
Proof. exists tt. reflexivity. Qed.

Lemma log_mcp_servers_returns servers : returns (log_mcp_servers servers).
Proof.
  destruct servers as [|s servers]; [apply returns_emit|].
  unfold log_mcp_servers.
  apply returns_bind; [apply returns_emit|intros _].
  apply returns_bind; [|intros; exists tt; reflexivity].
  apply returns_for_each. intros [i server]. apply returns_emit.
Qed.

Lemma initialize_model_result environ :
  result (initialize_model environ) = Ok (selected_model environ).
Proof.
  unfold initialize_model, selected_model.
  destruct (use_llm_farm environ); reflexivity.
Qed.

Lemma agent_main_block_binds environ servers :
  result (agent_main_block environ servers) = Ok tt
  ∧ binds_server (trace (agent_main_block environ servers)) = true.
Proof.
  unfold agent_main_block.
  destruct (use_llm_farm environ), servers; split; reflexivity.
Qed.

Lemma binds_server_app t1 t2 :
  binds_server (t1 ++ t2) = binds_server t1 || binds_server t2.
Proof. apply existsb_app. Qed.

(** With no required key missing, the module is initialised: it holds
    what the loader returned and the selected model, and run as the
    program it reaches [uvicorn.run]. *)
Lemma agent_module_starts h environ is_main :
  missing_keys environ = [] →
  ∃ t servers,
    agent_module h environ is_main
    = (t, Ok (mk_AgentModule servers (selected_model environ)))
    ∧ result (load_mcp_config h "mcp_config.json") = Ok servers
    ∧ (is_main = true → binds_server t = true).
Proof.
  intros Hnone. unfold agent_module.
  rewrite (check_environment_passes environ Hnone).
  destruct (load_mcp_config_returns h "mcp_config.json") as [servers Hservers].
  destruct (load_mcp_config h "mcp_config.json") as [t1 r1]. cbn in Hservers. subst r1.
  destruct (log_mcp_servers_returns servers) as [[] Hlog].
  pose proof (initialize_model_result environ) as Hmodel.
  destruct (agent_main_block_binds environ servers) as [Hmain Hbind].
  cbn [mbind M_bind emit logger_info mret M_ret].
  destruct (log_mcp_servers servers) as [t2 r2]. cbn in Hlog. subst r2.
  destruct (initialize_model environ) as [t3 r3]. cbn in Hmodel. subst r3.
  destruct is_main.
  - destruct (agent_main_block environ servers) as [t4 r4].
    cbn [result snd] in Hmain. cbn [trace fst] in Hbind. subst r4.
    eexists _, servers. split; [reflexivity|]. split; [reflexivity|]. intros _.
    rewrite !binds_server_app, Hbind, !orb_true_r. reflexivity.
  - eexists _, servers. split; [reflexivity|]. split; [reflexivity|discriminate].
Qed.

Lemma agent_module_model h environ is_main m :
  result (agent_module h environ is_main) = Ok m →
  mod_model m = selected_model environ.
Proof.
  intros Hok. destruct (missing_keys environ) as [|key keys] eqn:Hmissing.
  - destruct (agent_module_starts h environ is_main Hmissing) as (t & servers & Heq & _).
    rewrite Heq in Hok. cbn in Hok. injection Hok as <-. reflexivity.
  - destruct (agent_module_aborts h environ is_main) as (t & Heq & _).
    { rewrite Hmissing. discriminate. }
    rewrite Heq in Hok. discriminate Hok.
Qed.

Lemma farm_keys_present environ :
  use_llm_farm environ = true →
  getenv_truthy (os_getenv environ "LLM_FARM_API_KEY") = true →
  getenv_truthy (os_getenv environ "TAVILY_API_KEY") = true →
  missing_keys environ = [].
Proof.
  intros Huse Hfarm Htavily. unfold missing_keys, required_keys. rewrite Huse.
  rewrite !filter_cons, filter_nil.
  destruct (decide _) as [H1|_]; [congruence|].
  destruct (decide _) as [H2|_]; [congruence|]. reflexivity.
Qed.

(** C9, as stated, fails: with the alternate backend selected, both
    required keys present and LLM_FARM_URL absent, the module is
    initialised, bound to the default endpoint, and the server is
    started. *)
Lemma llm_farm_url_absence_not_fatal :
  use_llm_farm Samples.farm_without_url = true
  ∧ os_getenv Samples.farm_without_url "LLM_FARM_URL" = None
  ∧ ∃ t m, agent_module Samples.no_files Samples.farm_without_url true = (t, Ok m)
           ∧ binds_server t = true
           ∧ mod_model m = selected_model Samples.farm_without_url
           ∧ llm_farm_url Samples.farm_without_url = default_llm_farm_url.
Proof.
  split; [reflexivity|]. split; [reflexivity|].
  eexists _, _. split; [vm_compute; reflexivity|].
  repeat split; vm_compute; reflexivity.
Qed.

(** C9, amended. With the alternate backend selected, absence of
    LLM_FARM_API_KEY is fatal at start-up: initialisation raises a
    [ValueError] before the server is started.  Absence of LLM_FARM_URL is
    not: with the two required keys present, initialisation completes and
    the model is bound to the built-in default endpoint. *)
Theorem llm_farm_requirements (h : Host) (environ : gmap string string) :
  use_llm_farm environ = true →
  (os_getenv environ "LLM_FARM_API_KEY" = None →
   "LLM_FARM_API_KEY" ∈ missing_keys environ
   ∧ ∀ is_main, ∃ t, agent_module h environ is_main
                     = (t, Raise (mk_exn ValueError (missing_message environ)))
                     ∧ binds_server t = false)
  ∧ (getenv_truthy (os_getenv environ "LLM_FARM_API_KEY") = true →
     getenv_truthy (os_getenv environ "TAVILY_API_KEY") = true →
     os_getenv environ "LLM_FARM_URL" = None →
     ∀ is_main, ∃ t m,
       agent_module h environ is_main = (t, Ok m)
       ∧ (is_main = true → binds_server t = true)
       ∧ mod_model m =
         OpenAIChatModel "gpt-4o-mini"
           {| base_url := default_llm_farm_url;
              api_key := "dummy";
              default_headers :=
                [("genaiplatform-farm-subscription-key",
                  os_getenv environ "LLM_FARM_API_KEY")];
              default_query := [("api-version", "2024-08-01-preview")] |}).
Proof.
  intros Huse. split.
  - intros Habsent.
    assert ("LLM_FARM_API_KEY" ∈ required_keys environ) as Hreq
      by (unfold required_keys; rewrite Huse; set_solver).
    assert (getenv_truthy (os_getenv environ "LLM_FARM_API_KEY") = false) as Hfalse
      by (rewrite Habsent; reflexivity).
    split; [apply missing_keys_spec; auto|].
    intros is_main. eapply agent_module_aborts, missing_key_nonempty; eassumption.
  - intros Hfarm Htavily Hurl is_main.
    destruct (agent_module_starts h environ is_main
                (farm_keys_present environ Huse Hfarm Htavily))
      as (t & servers & Heq & _ & Hbind).
    eexists t, _. split; [exact Heq|]. split; [exact Hbind|].
    cbn [mod_model]. unfold selected_model, llm_farm_url, os_getenv_or.
    unfold os_getenv in Hurl. rewrite Huse, Hurl. reflexivity.
Qed.

(** The alternate backend with its key and the search key, no URL. *)
Lemma llm_farm_requirements_witness :
  ∃ t m, agent_module Samples.no_files Samples.farm_without_url true = (t, Ok m)
         ∧ binds_server t = true
         ∧ ∃ client, mod_model m = OpenAIChatModel "gpt-4o-mini" client
                     ∧ base_url client = default_llm_farm_url.
Proof.
  destruct (llm_farm_requirements Samples.no_files Samples.farm_without_url)
    as [_ Hstarts]; [reflexivity|].
  destruct (Hstarts eq_refl eq_refl eq_refl true) as (t & m & Heq & Hbind & Hmodel).
  exists t, m. split; [exact Heq|]. split; [apply Hbind; reflexivity|].
  eexists. split; [exact Hmodel|reflexivity].
Defined.

Ltac by_bits c :=
  destruct c as [[] [] [] [] [] [] [] []]; vm_compute; intros H;
  solve [discriminate H | auto].

Lemma lower_ascii_t c : PyStr.lower_ascii c = "t"%char → c = "t"%char ∨ c = "T"%char.
Proof. by_bits c. Qed.
Lemma lower_ascii_r c : PyStr.lower_ascii c = "r"%char → c = "r"%char ∨ c = "R"%char.
Proof. by_bits c. Qed.
Lemma lower_ascii_u c : PyStr.lower_ascii c = "u"%char → c = "u"%char ∨ c = "U"%char.
Proof. by_bits c. Qed.
Lemma lower_ascii_e c : PyStr.lower_ascii c = "e"%char → c = "e"%char ∨ c = "E"%char.
Proof. by_bits c. Qed.

Lemma lower_true_iff v : PyStr.lower v = "true" ↔ v ∈ true_spellings.
Proof.
  split.
  - destruct v as [|c1 [|c2 [|c3 [|c4 [|c5 v]]]]]; cbn [PyStr.lower]; try discriminate.
    intros [= H1 H2 H3 H4].
    apply lower_ascii_t in H1. apply lower_ascii_r in H2.
    apply lower_ascii_u in H3. apply lower_ascii_e in H4.
    unfold true_spellings.
    destruct H1 as [-> | ->], H2 as [-> | ->], H3 as [-> | ->], H4 as [-> | ->];
      set_solver.
  - unfold true_spellings. intros H.
    repeat (apply elem_of_cons in H as [-> | H]; [reflexivity|]).
    set_solver.
Qed.

Lemma use_llm_farm_iff environ :
  use_llm_farm environ = true ↔
  ∃ v, os_getenv environ "USE_LLM_FARM" = Some v ∧ PyStr.lower v = "true".
Proof.
  unfold use_llm_farm, os_getenv_or, os_getenv.
  destruct (environ !! "USE_LLM_FARM") as [v|]; cbn [default].
  - rewrite String.eqb_eq. split; [eauto|]. intros (v' & [= <-] & Hv). exact Hv.
  - split; [discriminate|]. intros (v & Hv & _). discriminate Hv.
Qed.

(** C10. The alternate (LLM Farm) backend is selected if and only if
    USE_LLM_FARM is set and its value, lower-cased, is exactly "true",
    that is, one of the sixteen spellings of [true] in mixed case.  When
    the variable is unset or holds any other value, the standard
    backend is selected: the required keys are those of the standard
    provider and the model handle is the string "openai:gpt-4o-mini". *)
Theorem backend_selection (environ : gmap string string) :
  (use_llm_farm environ = true ↔
   ∃ v, os_getenv environ "USE_LLM_FARM" = Some v ∧ PyStr.lower v = "true")
  ∧ (∀ v, os_getenv environ "USE_LLM_FARM" = Some v →
          (use_llm_farm environ = true ↔ v ∈ true_spellings))
  ∧ (os_getenv environ "USE_LLM_FARM" = None → use_llm_farm environ = false)
  ∧ (use_llm_farm environ = false →
     required_keys environ = ["OPENAI_API_KEY"; "TAVILY_API_KEY"]
     ∧ result (initialize_model environ) = Ok (ModelName "openai:gpt-4o-mini")
     ∧ ∀ h is_main m, result (agent_module h environ is_main) = Ok m →
                      mod_model m = ModelName "openai:gpt-4o-mini")
  ∧ (use_llm_farm environ = true →
     required_keys environ = ["LLM_FARM_API_KEY"; "TAVILY_API_KEY"]
     ∧ ∃ client, result (initialize_model environ)
                 = Ok (OpenAIChatModel "gpt-4o-mini" client)).
Proof.
  split; [apply use_llm_farm_iff|].
  split.
  { intros v Hv. rewrite use_llm_farm_iff, <- lower_true_iff. split.
    - intros (v' & Hv' & Hlower). congruence.
    - eauto. }
  split.
  { intros Hunset. unfold use_llm_farm, os_getenv_or. unfold os_getenv in Hunset.
    rewrite Hunset. reflexivity. }
  split.
  - intros Hstd. unfold required_keys. rewrite Hstd. split; [reflexivity|].
    assert (selected_model environ = ModelName "openai:gpt-4o-mini") as Hsel
      by (unfold selected_model; rewrite Hstd; reflexivity).
    rewrite initialize_model_result, Hsel. split; [reflexivity|].
    intros h is_main m Hok. rewrite <- Hsel. eapply agent_module_model, Hok.
  - intros Hfarm. unfold required_keys. rewrite Hfarm. split; [reflexivity|].
    rewrite initialize_model_result. unfold selected_model. rewrite Hfarm. eauto.
Qed.

(** USE_LLM_FARM is "yes": the standard backend, and its model string. *)
Lemma backend_selection_witness :
  use_llm_farm Samples.openai_env = false
  ∧ ∃ t m, agent_module Samples.no_files Samples.openai_env true = (t, Ok m)
           ∧ mod_model m = ModelName "openai:gpt-4o-mini".
Proof.
  split; [reflexivity|].
  destruct (backend_selection Samples.openai_env) as (_ & _ & _ & Hstd & _).
  destruct (Hstd eq_refl) as (_ & _ & Hmodel).
  destruct (agent_module Samples.no_files Samples.openai_env true) as [t [m| |]] eqn:Hrun;
    [|discriminate Hrun..].
  exists t, m. split; [reflexivity|].
  apply (Hmodel Samples.no_files true). rewrite Hrun. reflexivity.
Defined.

(** ** The definitions at work *)

Example use_llm_farm_values :
  use_llm_farm {[ "USE_LLM_FARM" := "true" ]} = true
  ∧ use_llm_farm {[ "USE_LLM_FARM" := "True" ]} = true
  ∧ use_llm_farm {[ "USE_LLM_FARM" := "TRUE" ]} = true
  ∧ use_llm_farm {[ "USE_LLM_FARM" := "1" ]} = false
  ∧ use_llm_farm {[ "USE_LLM_FARM" := "yes" ]} = false
  ∧ use_llm_farm {[ "USE_LLM_FARM" := " true" ]} = false
  ∧ use_llm_farm {[ "USE_LLM_FARM" := "" ]} = false
  ∧ use_llm_farm ∅ = false.
Proof. repeat split; reflexivity. Qed.

Example str_helpers :
  PyStr.chars "a✅b" = ["a"; "✅"; "b"] ∧ PyStr.len "✅" = 1
  ∧ PyStr.slice_to 2 "✅ok" = "✅o" ∧ PyStr.lower "TrUe1" = "true1"
  ∧ PyStr.of_nat 12 = "12" ∧ PyStr.repeat "=" 3 = "==="
  ∧ PyStr.join ", " ["a"; "b"] = "a, b".
Proof. repeat split; reflexivity. Qed.

(** A configuration file holding a JSON array: the lookup of
    [mcpServers] fails, the catch-all clause logs it, and the registry is
    empty although the construction routine would have built a server. *)
Example load_json_array :
  load_mcp_config Samples.json_array "mcp_config.json" =
  ([Log INFO "Loading MCP configuration from mcp_config.json";
    Log ERROR "❌ Failed to load MCP configuration: AttributeError: 'list' object has no attribute 'get'";
    Log INFO "Continuing with Tavily search only..."],
   Ok []).
Proof. reflexivity. Qed.

(** An item that is not a dictionary makes the whole search a failure. *)
Example search_malformed_item :
  result (tavily_search Samples.malformed_item "x") =
  Ok (failure_response "x" "'int' object has no attribute 'get'").
Proof. reflexivity. Qed.

(** [main.py] with the standard backend and no configuration file. *)
Example main_py_serves :
  result (main_py Samples.no_files Samples.openai_env) = Ok tt
  ∧ binds_server (trace (main_py Samples.no_files Samples.openai_env)) = true
  ∧ provider_calls (trace (main_py Samples.no_files Samples.openai_env)) = [].
Proof. repeat split; reflexivity. Qed.

(** * Further properties *)

(** ** The loader as a function of the host *)

Lemma load_existing_constructed h file :
  match constructed h file with
  | Some servers => result (load_existing h file) = Ok servers
  | None => ∃ e, result (load_existing h file) = Raise e
  end.
Proof.
  unfold constructed, load_existing.
  rewrite (bind_result_Ok _ _ tt) by reflexivity.
  destruct (open_read h file) as [text|e]; [|eexists; reflexivity].
  rewrite (bind_result_Ok _ _ text) by reflexivity.
  destruct (json_loads h text) as [[| | | | | |d]|e]; try (eexists; reflexivity).
  rewrite (bind_result_Ok _ _ (PyDict d)) by reflexivity.
  rewrite (bind_result_Ok _ _ (default (PyDict ∅) (d !! "mcpServers"))) by reflexivity.
  destruct (default (PyDict ∅) (d !! "mcpServers")) as [| | | |s|l|d'];
    try (eexists; reflexivity); cbn [py_sized];
    (destruct (load_mcp_servers h file) as [servers|e]; [|eexists]; reflexivity).
Qed.

Lemma load_existing_file_result h file :
  os_path_exists h file = true →
  result (load_mcp_config h file) = Ok (default [] (constructed h file)).
Proof.
  intros Hfile. rewrite (load_when_exists h file Hfile), result_try_except.
  pose proof (load_existing_constructed h file) as Hc.
  destruct (constructed h file) as [servers|].
  - rewrite Hc. reflexivity.
  - destruct Hc as [e ->]. apply load_except_result.
Qed.

(** X1. The registry [load_mcp_config] returns is a function of the host
    alone: the servers built from the first of the given path and the
    fallback path that exists, provided that file opens, parses to a JSON
    object whose [mcpServers] entry has a length, and the construction
    routine returns; the empty list in every other case. *)
Theorem load_mcp_config_registry (h : Host) (config_path : string) :
  result (load_mcp_config h config_path) = Ok (registry_of h config_path).
Proof.
  unfold registry_of, resolved_path.
  destruct (os_path_exists h config_path) eqn:Hp.
  - apply load_existing_file_result, Hp.
  - destruct (os_path_exists h fallback_path) eqn:Hfb.
    + destruct (load_fallback_same h config_path Hp Hfb) as [-> _].
      apply load_existing_file_result, Hfb.
    + rewrite (load_when_nothing h config_path Hp); auto.
Qed.

(** X2. The fallback file stands in for an absent file only.  When the
    given file exists and fails to load, the registry is empty and no
    retry with the fallback file is announced, whatever the fallback file
    holds. *)
Theorem load_mcp_config_no_fallback_for_broken (h : Host) (config_path : string) :
  os_path_exists h config_path = true →
  constructed h config_path = None →
  result (load_mcp_config h config_path) = Ok []
  ∧ fallback_retries (trace (load_mcp_config h config_path)) = 0.
Proof.
  intros Hp Hbroken. split.
  - rewrite (load_existing_file_result h config_path Hp), Hbroken. reflexivity.
  - rewrite (load_when_exists h config_path Hp). apply fallback_retries_none.
    apply all_events_try; [apply load_existing_no_retry|apply load_except_no_retry].
Qed.

(** The primary file is broken and the fallback file would give a server. *)
Lemma load_mcp_config_no_fallback_for_broken_witness :
  constructed Samples.broken_primary fallback_path = Some [Samples.kube]
  ∧ result (load_mcp_config Samples.broken_primary "mcp_config.json") = Ok []
  ∧ fallback_retries (trace (load_mcp_config Samples.broken_primary "mcp_config.json")) = 0.
Proof.
  split; [reflexivity|].
  apply (load_mcp_config_no_fallback_for_broken Samples.broken_primary "mcp_config.json");
    reflexivity.
Defined.

(** *** What the log says about a load *)

Lemma error_records_app t1 t2 :
  error_records (t1 ++ t2) = error_records t1 + error_records t2.
Proof. unfold error_records. rewrite filter_app. apply length_app. Qed.

Lemma error_records_none t : Forall not_error t → error_records t = 0.
Proof.
  unfold error_records, not_error.
  induction 1 as [|ev t Hev _ IH]; [reflexivity|].
  rewrite filter_cons. destruct (decide _) as [Heq|_]; [congruence|exact IH].
Qed.

Lemma load_existing_no_error h file : all_events not_error (load_existing h file).
Proof. unfold load_existing. events. Qed.

Lemma load_except_one_error e : error_records (trace (load_except e)) = 1.
Proof.
  unfold load_except.
  destruct (is_FileNotFoundError e), (is_JSONDecodeError e),
    (is_ImportError e), (is_CalledProcessError e); reflexivity.
Qed.

Lemma load_existing_file_errors h file :
  os_path_exists h file = true →
  error_records (trace (load_mcp_config h file)) =
  match constructed h file with Some _ => 0 | None => 1 end.
Proof.
  intros Hfile. rewrite (load_when_exists h file Hfile), trace_try_except.
  rewrite error_records_app.
  rewrite (error_records_none (trace _)) by apply load_existing_no_error.
  pose proof (load_existing_constructed h file) as Hc.
  destruct (constructed h file) as [servers|].
  - rewrite Hc. reflexivity.
  - destruct Hc as [e ->]. apply load_except_one_error.
Qed.

(** X3. A load that fails is reported by exactly one ERROR record; a load
    that succeeds, and a load that finds neither file, log none.  So the
    number of ERROR records tells a failed configuration from an absent
    one, which the returned registry (empty in both cases) does not. *)
Theorem load_mcp_config_error_records (h : Host) (config_path : string) :
  error_records (trace (load_mcp_config h config_path)) =
  match resolved_path h config_path with
  | Some file => match constructed h file with Some _ => 0 | None => 1 end
  | None => 0
  end.
Proof.
  unfold resolved_path.
  destruct (os_path_exists h config_path) eqn:Hp.
  - apply load_existing_file_errors, Hp.
  - destruct (os_path_exists h fallback_path) eqn:Hfb.
    + destruct (load_fallback_same h config_path Hp Hfb) as [_ ->].
      rewrite error_records_app. apply load_existing_file_errors, Hfb.
    + rewrite (load_when_nothing h config_path Hp); auto.
Qed.

(** X4. A configuration object without the [mcpServers] key is accepted:
    the count logged is 0, construction is still attempted, and what it
    returns is the registry.  With the key present and holding an object,
    the count logged is the number of its entries. *)
Theorem load_mcp_config_without_servers_key (h : Host) (config_path text : string)
    (d : gmap string pyval) (servers : list MCPServer) :
  os_path_exists h config_path = true →
  open_read h config_path = Returns text →
  json_loads h text = Returns (PyDict d) →
  load_mcp_servers h config_path = Returns servers →
  (d !! "mcpServers" = None →
   load_mcp_config h config_path =
   ([Log INFO ("Loading MCP configuration from " +:+ config_path);
     Log INFO "Found 0 MCP server definitions";
     Log INFO ("✅ Successfully loaded " +:+ PyStr.of_nat (length servers)
               +:+ " MCP servers")],
    Ok servers))
  ∧ (∀ defs, d !! "mcpServers" = Some (PyDict defs) →
     load_mcp_config h config_path =
     ([Log INFO ("Loading MCP configuration from " +:+ config_path);
       Log INFO ("Found " +:+ PyStr.of_nat (size defs) +:+ " MCP server definitions");
       Log INFO ("✅ Successfully loaded " +:+ PyStr.of_nat (length servers)
                 +:+ " MCP servers")],
      Ok servers)).
Proof.
  intros Hp Hopen Hjson Hload.
  assert (∀ v, default (PyDict ∅) (d !! "mcpServers") = PyDict v →
    load_mcp_config h config_path =
    ([Log INFO ("Loading MCP configuration from " +:+ config_path);
      Log INFO ("Found " +:+ PyStr.of_nat (size v) +:+ " MCP server definitions");
      Log INFO ("✅ Successfully loaded " +:+ PyStr.of_nat (length servers)
                +:+ " MCP servers")],
     Ok servers)) as Hrun.
  { intros v Hv.
    rewrite (load_when_exists h config_path Hp). unfold load_existing.
    rewrite Hopen. cbn [call mbind M_bind mret M_ret logger_info emit].
    rewrite Hjson. cbn [call mbind M_bind mret M_ret py_get].
    rewrite Hv, Hload. reflexivity. }
  split; [intros Hkey|intros defs Hkey].
  - rewrite (Hrun ∅) by (rewrite Hkey; reflexivity). reflexivity.
  - apply Hrun. rewrite Hkey. reflexivity.
Qed.

(** An object without the key, and a routine that builds nothing. *)
Lemma load_mcp_config_without_servers_key_witness :
  load_mcp_config Samples.no_servers_key "mcp_config.json" =
  ([Log INFO "Loading MCP configuration from mcp_config.json";
    Log INFO "Found 0 MCP server definitions";
    Log INFO "✅ Successfully loaded 0 MCP servers"], Ok []).
Proof.
  destruct (load_mcp_config_without_servers_key Samples.no_servers_key
              "mcp_config.json" "{}" ∅ [] eq_refl eq_refl eq_refl eq_refl)
    as [Hnone _].
  apply Hnone. reflexivity.
Defined.

(** ** The search adapter at the edges of the provider's response *)

Lemma tavily_search_try_after_call sh rid q v :
  tavily_client_search sh (search_request q) = Returns v →
  result (tavily_search_try sh rid q) =
  result
    (found ← py_get v "results" (PyList []);
     n ← py_len found;
     logger_info ("[" +:+ rid +:+ "] Found " +:+ PyStr.of_nat n +:+ " results");;
     listed ← py_get v "results" (PyList []);
     items ← py_iter listed;
     results ← for_each (search_result_of sh) items;
     ans ← py_get v "answer" (PyStr "");
     response ← new_SearchResponse sh q results ans;
     logger_info ("[" +:+ rid +:+ "] ✅ TOOL SUCCESS: tavily_search returned "
                  +:+ PyStr.of_nat (length results) +:+ " results");;
     (match answer response with
      | Some a =>
          if negb (String.eqb a "")
          then logger_info ("[" +:+ rid +:+ "] AI Answer available: "
                            +:+ PyStr.slice_to 100 a +:+ "...")
          else mret tt
      | None => mret tt
      end);;
     mret response).
Proof.
  intros Hcall. unfold tavily_search_try.
  rewrite (bind_result_Ok _ _ tt) by reflexivity.
  rewrite (bind_result_Ok _ _ tt) by reflexivity.
  rewrite Hcall.
  rewrite (bind_result_Ok _ _ v) by reflexivity.
  rewrite (bind_result_Ok _ _ tt) by reflexivity.
  reflexivity.
Qed.

Lemma tavily_search_after_items sh rid q d items :
  tavily_client_search sh (search_request q) = Returns (PyDict d) →
  default (PyList []) (d !! "results") = PyList items →
  result (tavily_search_try sh rid q) =
  match result (for_each (search_result_of sh) items) with
  | Ok rs => result (new_SearchResponse sh q rs (default (PyStr "") (d !! "answer")))
  | Raise e => Raise e
  | OutOfFuel => OutOfFuel
  end.
Proof.
  intros Hcall Hitems. rewrite (tavily_search_try_after_call sh rid q _ Hcall).
  unfold py_get. rewrite Hitems.
  rewrite (bind_result_Ok _ _ (PyList items)) by reflexivity.
  rewrite (bind_result_Ok _ _ (length items)) by reflexivity.
  rewrite (bind_result_Ok _ _ tt) by reflexivity.
  rewrite (bind_result_Ok _ _ (PyList items)) by reflexivity.
  rewrite (bind_result_Ok _ _ items) by reflexivity.
  rewrite result_bind.
  destruct (result (for_each _ items)) as [rs|e|]; [|reflexivity..].
  rewrite (bind_result_Ok _ _ (default (PyStr "") (d !! "answer"))) by reflexivity.
  rewrite result_bind.
  destruct (result (new_SearchResponse _ _ _ _)) as [resp|e|]; [|reflexivity..].
  rewrite (bind_result_Ok _ _ tt) by reflexivity.
  rewrite (bind_result_Ok _ _ tt)
    by (destruct (answer resp) as [a|]; [destruct (negb _)|]; reflexivity).
  reflexivity.
Qed.

Lemma tavily_search_success sh q d items a :
  tavily_client_search sh (search_request q) = Returns (PyDict d) →
  default (PyList []) (d !! "results") = PyList items →
  Forall (provider_item sh) items →
  validate_optional_str (default (PyStr "") (d !! "answer")) = Some a →
  ∃ rs, result (tavily_search sh q) = Ok (mk_SearchResponse q rs a)
        ∧ Forall2 (item_maps_to sh) items rs.
Proof.
  intros Hcall Hresults Hitems Hanswer.
  destruct (for_each_search_result_of sh items Hitems) as (rs & Hrs & Hall).
  exists rs. split; [|exact Hall].
  rewrite tavily_search_result,
    (tavily_search_after_items sh _ q d items Hcall Hresults), Hrs.
  cbn [result snd]. unfold new_SearchResponse. rewrite Hanswer. reflexivity.
Qed.

(** X5. A provider response without a [results] key is not a failure: the
    response returned has an empty result list and carries the
    provider's answer (the empty string if that is missing too). *)
Theorem tavily_search_without_results_key (sh : SearchHost) (q ans : string)
    (d : gmap string pyval) :
  tavily_client_search sh (search_request q) = Returns (PyDict d) →
  d !! "results" = None →
  str_field d "answer" ans →
  result (tavily_search sh q) = Ok (mk_SearchResponse q [] (Some ans)).
Proof.
  intros Hcall Hkey Hans.
  destruct (tavily_search_success sh q d [] (Some ans) Hcall) as (rs & Hrs & Hall).
  - rewrite Hkey. reflexivity.
  - constructor.
  - rewrite (str_field_get _ _ _ Hans). reflexivity.
  - inversion Hall. subst rs. exact Hrs.
Qed.

(** The provider answers with an empty object. *)
Lemma tavily_search_without_results_key_witness :
  result (tavily_search (Samples.search_host (Returns (PyDict ∅))) "x")
  = Ok (mk_SearchResponse "x" [] (Some "")).
Proof.
  apply (tavily_search_without_results_key _ "x" "" ∅); [reflexivity..|].
  right. split; reflexivity.
Defined.

(** X6. An answer that is present and null is kept as no answer: with
    well-formed items the search succeeds and the response's [answer] is
    [None], not the empty string used for a missing key. *)
Theorem tavily_search_null_answer (sh : SearchHost) (q : string)
    (d : gmap string pyval) (items : list pyval) :
  tavily_client_search sh (search_request q) = Returns (PyDict d) →
  d !! "results" = Some (PyList items) →
  Forall (provider_item sh) items →
  d !! "answer" = Some PyNone →
  ∃ rs, result (tavily_search sh q) = Ok (mk_SearchResponse q rs None)
        ∧ Forall2 (item_maps_to sh) items rs.
Proof.
  intros Hcall Hresults Hitems Hnull.
  apply (tavily_search_success sh q d items None Hcall); [|exact Hitems|].
  - rewrite Hresults. reflexivity.
  - rewrite Hnull. reflexivity.
Qed.

(** No items and a null answer. *)
Lemma tavily_search_null_answer_witness :
  ∃ rs, result (tavily_search
                  (Samples.search_host
                     (Returns (PyDict {[ "results" := PyList []; "answer" := PyNone ]})))
                  "x")
        = Ok (mk_SearchResponse "x" rs None)
        ∧ Forall2 (item_maps_to
                     (Samples.search_host
                        (Returns (PyDict {[ "results" := PyList []; "answer" := PyNone ]}))))
            [] rs.
Proof.
  apply (tavily_search_null_answer _ "x"
           {[ "results" := PyList []; "answer" := PyNone ]} []);
    [reflexivity| vm_compute; reflexivity | constructor | vm_compute; reflexivity].
Defined.

(** X7. A response of the wrong shape is answered by the failure
    response, whose text names the type met: a response that is not a
    dictionary fails at the first [get]; a [results] entry without a
    length (null, a number, a boolean) fails at [len]. *)
Theorem tavily_search_wrong_shape (sh : SearchHost) (q : string) (v : pyval) :
  tavily_client_search sh (search_request q) = Returns v →
  ((∀ d, v ≠ PyDict d) →
   result (tavily_search sh q) =
   Ok (failure_response q ("'" +:+ py_type_name v +:+ "' object has no attribute 'get'")))
  ∧ (∀ d r, v = PyDict d → d !! "results" = Some r → py_sized r = false →
     result (tavily_search sh q) =
     Ok (failure_response q ("object of type '" +:+ py_type_name r +:+ "' has no len()"))).
Proof.
  intros Hcall. split.
  - intros Hnot. rewrite tavily_search_result,
      (tavily_search_try_after_call sh _ q v Hcall).
    destruct v as [| | | | | |d]; try reflexivity.
    destruct (Hnot d). reflexivity.
  - intros d r -> Hr Hsized. rewrite tavily_search_result,
      (tavily_search_try_after_call sh _ q _ Hcall).
    unfold py_get. rewrite Hr. cbn [default].
    rewrite (bind_result_Ok _ _ r) by reflexivity.
    destruct r; try discriminate Hsized; reflexivity.
Qed.

(** The provider answers with a list; with an object whose results are null. *)
Lemma tavily_search_wrong_shape_witness :
  result (tavily_search (Samples.search_host (Returns (PyList []))) "x")
  = Ok (failure_response "x" "'list' object has no attribute 'get'")
  ∧ result (tavily_search
              (Samples.search_host (Returns (PyDict {[ "results" := PyNone ]}))) "x")
    = Ok (failure_response "x" "object of type 'NoneType' has no len()").
Proof.
  split.
  - destruct (tavily_search_wrong_shape (Samples.search_host (Returns (PyList [])))
                "x" (PyList []) eq_refl) as [Hlist _].
    apply Hlist. discriminate.
  - destruct (tavily_search_wrong_shape
                (Samples.search_host (Returns (PyDict {[ "results" := PyNone ]})))
                "x" _ eq_refl) as [_ Hnull].
    apply (Hnull {[ "results" := PyNone ]} PyNone); reflexivity.
Defined.

Lemma item_maps_to_provider_items sh items rs :
  Forall2 (item_maps_to sh) items rs → Forall (provider_item sh) items.
Proof. induction 1; constructor; [eexists; eassumption|assumption]. Qed.

(** X8. Results are all or nothing: if one item of the provider's list is
    not well formed, the response is the failure response, with an empty
    result list, however many well-formed items precede or follow it. *)
Theorem tavily_search_no_partial_results (sh : SearchHost) (q : string)
    (d : gmap string pyval) (items : list pyval) :
  tavily_client_search sh (search_request q) = Returns (PyDict d) →
  d !! "results" = Some (PyList items) →
  Exists (λ item, ¬ provider_item sh item) items →
  ∃ msg, result (tavily_search sh q) = Ok (failure_response q msg).
Proof.
  intros Hcall Hresults Hbad. rewrite tavily_search_result.
  pose proof (tavily_search_try_terminates sh (datetime_now sh) q) as Hterm.
  unfold terminates in Hterm.
  destruct (result (tavily_search_try _ _ _)) as [resp|e|] eqn:Htry;
    [|exists (exn_str e); reflexivity|contradiction].
  apply (tavily_search_try_results _ _ _ _ _ _ Hcall Hresults) in Htry.
  apply item_maps_to_provider_items in Htry.
  apply Exists_exists in Hbad as (item & Hin & Hnot).
  rewrite Forall_forall in Htry. destruct (Hnot (Htry item Hin)).
Qed.

(** A well-formed item followed by a number. *)
Lemma tavily_search_no_partial_results_witness :
  ∃ msg, result (tavily_search
                   (Samples.search_host
                      (Returns (PyDict {[ "results" := PyList [PyDict ∅; PyInt 5] ]})))
                   "x")
         = Ok (failure_response "x" msg).
Proof.
  apply (tavily_search_no_partial_results _ "x"
           {[ "results" := PyList [PyDict ∅; PyInt 5] ]} [PyDict ∅; PyInt 5]).
  - reflexivity.
  - vm_compute. reflexivity.
  - apply Exists_cons_tl, Exists_cons_hd.
    intros (r & d & Heq & _). discriminate Heq.
Defined.

(** X9. The answer is validated after the items: an answer that is
    neither a string nor null makes the search a failure even when every
    item is well formed, and the failure text is that of the validation
    error for [SearchResponse]. *)
Theorem tavily_search_answer_of_wrong_type (sh : SearchHost) (q : string)
    (d : gmap string pyval) (items : list pyval) (a : pyval) :
  tavily_client_search sh (search_request q) = Returns (PyDict d) →
  d !! "results" = Some (PyList items) →
  Forall (provider_item sh) items →
  d !! "answer" = Some a →
  validate_optional_str a = None →
  result (tavily_search sh q) =
  Ok (failure_response q (validation_error_str sh "SearchResponse" [("answer", a)])).
Proof.
  intros Hcall Hresults Hitems Ha Hinvalid.
  destruct (for_each_search_result_of sh items Hitems) as (rs & Hrs & _).
  rewrite tavily_search_result, (tavily_search_after_items sh _ q d items Hcall), Hrs
    by (rewrite Hresults; reflexivity).
  cbn [result snd]. unfold new_SearchResponse. rewrite Ha. cbn [from_option id].
  rewrite Hinvalid. reflexivity.
Qed.

(** One well-formed item and a number for an answer. *)
Lemma tavily_search_answer_of_wrong_type_witness :
  result (tavily_search
            (Samples.search_host
               (Returns (PyDict {[ "results" := PyList [PyDict ∅]; "answer" := PyInt 42 ]})))
            "x")
  = Ok (failure_response "x" "1 validation error for SearchResponse").
Proof.
  rewrite (tavily_search_answer_of_wrong_type
             (Samples.search_host
                (Returns (PyDict {[ "results" := PyList [PyDict ∅]; "answer" := PyInt 42 ]})))
             "x" {[ "results" := PyList [PyDict ∅]; "answer" := PyInt 42 ]}
             [PyDict ∅] (PyInt 42)).
  - reflexivity.
  - reflexivity.
  - vm_compute. reflexivity.
  - repeat constructor. exists (mk_SearchResult "" "" "" 0), ∅.
    repeat split; right; split; reflexivity.
  - vm_compute. reflexivity.
  - reflexivity.
Defined.

(** *** The correlation identifier *)

Lemma prefix_append_same (s p m : string) :
  String.prefix p m = true → String.prefix (s +:+ p) (s +:+ m) = true.
Proof.
  intros Hp. induction s as [|c s IH]; [exact Hp|].
  change (String.prefix (String c (s +:+ p)) (String c (s +:+ m)) = true).
  cbn [String.prefix]. destruct (Ascii.ascii_dec c c); [exact IH|congruence].
Qed.

Lemma tagged_log lvl request_id m :
  String.prefix "] " m = true → tagged request_id (Log lvl ("[" +:+ request_id +:+ m)).
Proof. intros Hm. apply (prefix_append_same (String "[" request_id)), Hm. Qed.

Lemma new_SearchResult_silent {P} sh t u c s : all_events P (new_SearchResult sh t u c s).
Proof.
  unfold new_SearchResult.
  destruct (validate_str t), (validate_str u), (validate_str c),
    (validate_float sh s); constructor.
Qed.

Lemma new_SearchResponse_silent {P} sh q rs a : all_events P (new_SearchResponse sh q rs a).
Proof. unfold new_SearchResponse. destruct (validate_optional_str a); constructor. Qed.

Lemma search_result_of_silent {P} sh item : all_events P (search_result_of sh item).
Proof.
  unfold search_result_of.
  repeat (apply all_events_bind; [|intros ?]);
    auto using all_events_py_get, all_events_mret, new_SearchResult_silent.
  apply all_events_mret.
Qed.

#[local] Hint Resolve new_SearchResult_silent new_SearchResponse_silent : evs.
#[local] Hint Extern 1 (all_events (tagged _) (logger_info _)) =>
  apply all_events_emit; apply tagged_log; reflexivity : evs.
#[local] Hint Extern 1 (all_events (tagged _) (logger_error _)) =>
  apply all_events_emit; apply tagged_log; reflexivity : evs.
#[local] Hint Extern 1 (all_events (tagged _) (emit _)) =>
  apply all_events_emit; exact I : evs.

(** X10. Every log record of one search carries the same correlation
    identifier, the clock reading taken on entry: each message starts
    with that identifier in brackets, on the success path and on the
    failure path alike. *)
Theorem tavily_search_logs_tagged (sh : SearchHost) (q : string) :
  all_events (tagged (datetime_now sh)) (tavily_search sh q).
Proof.
  unfold tavily_search.
  apply all_events_bind; [auto with evs|intros _].
  apply all_events_bind; [auto with evs|intros _].
  apply all_events_try.
  - unfold tavily_search_try. events.
    + apply all_events_for_each. intros item. apply search_result_of_silent.
    + destruct (answer _) as [ans'|]; [destruct (negb _)|]; events.
  - intros e. unfold tavily_search_except. events.
Qed.

(** ** Start-up and the environment *)

Lemma getenv_truthy_false environ key :
  getenv_truthy (os_getenv environ key) = false ↔ key_unusable environ key.
Proof.
  unfold key_unusable, os_getenv. destruct (environ !! key) as [v|]; cbn.
  - rewrite negb_false_iff, String.eqb_eq. split.
    + intros ->. auto.
    + intros [Hnone|[= ->]]; [discriminate Hnone|reflexivity].
  - split; auto.
Qed.

Lemma missing_keys_nil environ :
  missing_keys environ = [] ↔
  ∀ key, key ∈ required_keys environ → ∃ v, environ !! key = Some v ∧ v ≠ "".
Proof.
  split.
  - intros Hnil key Hreq.
    destruct (getenv_truthy (os_getenv environ key)) eqn:Htruthy.
    + unfold os_getenv in Htruthy. destruct (environ !! key) as [v|]; [|discriminate].
      exists v. split; [reflexivity|]. intros ->. discriminate Htruthy.
    + destruct (missing_key_nonempty environ key Hreq Htruthy Hnil).
  - intros Hall. destruct (missing_keys environ) as [|key keys] eqn:Hmissing; [reflexivity|].
    assert (key ∈ missing_keys environ) as Hin by (rewrite Hmissing; set_solver).
    apply missing_keys_spec in Hin as [Hreq Hfalse].
    destruct (Hall key Hreq) as (v & Hv & Hne).
    apply getenv_truthy_false in Hfalse as [Hnone|Hempty]; congruence.
Qed.

(** X11. Initialisation succeeds exactly when each required key of the
    selected backend is set to a non-empty value.  A required key that is
    unset, or set to the empty string, is reported: initialisation raises
    the [ValueError] whose text lists the missing keys, and the key is
    among them. *)
Theorem agent_module_starts_iff (h : Host) (environ : gmap string string)
    (is_main : bool) :
  ((∃ m, result (agent_module h environ is_main) = Ok m) ↔
   ∀ key, key ∈ required_keys environ → ∃ v, environ !! key = Some v ∧ v ≠ "")
  ∧ (∀ key, key ∈ required_keys environ → key_unusable environ key →
     key ∈ missing_keys environ
     ∧ result (agent_module h environ is_main)
       = Raise (mk_exn ValueError (missing_message environ))).
Proof.
  split.
  - rewrite <- missing_keys_nil. split.
    + intros [m Hm]. destruct (missing_keys environ) as [|key keys] eqn:Hmissing;
        [reflexivity|].
      destruct (agent_module_aborts h environ is_main) as (t & Heq & _).
      { rewrite Hmissing. discriminate. }
      rewrite Heq in Hm. discriminate Hm.
    + intros Hnil.
      destruct (agent_module_starts h environ is_main Hnil) as (t & servers & Heq & _).
      eexists. rewrite Heq. reflexivity.
  - intros key Hreq Hbad. apply getenv_truthy_false in Hbad.
    split; [apply missing_keys_spec; auto|].
    destruct (agent_module_aborts h environ is_main) as (t & Heq & _).
    { eapply missing_key_nonempty; eassumption. }
    rewrite Heq. reflexivity.
Qed.

(** The standard backend with its key set to the empty string. *)
Lemma agent_module_starts_iff_witness :
  result (agent_module Samples.no_files
            {[ "OPENAI_API_KEY" := ""; "TAVILY_API_KEY" := "t" ]} true)
  = Raise (mk_exn ValueError "Missing required environment variables: OPENAI_API_KEY").
Proof.
  destruct (agent_module_starts_iff Samples.no_files
              {[ "OPENAI_API_KEY" := ""; "TAVILY_API_KEY" := "t" ]} true) as [_ Hbad].
  destruct (Hbad "OPENAI_API_KEY") as [_ Hraise].
  - vm_compute. set_solver.
  - right. reflexivity.
  - rewrite Hraise. reflexivity.
Defined.

(** *** The variables that matter *)

Lemma same_use_llm_farm environ environ' :
  same_variables environ environ' → use_llm_farm environ' = use_llm_farm environ.
Proof.
  intros Hsame. unfold use_llm_farm, os_getenv_or.
  rewrite (Hsame "USE_LLM_FARM"); [reflexivity|].
  unfold variables_read. destruct (use_llm_farm environ); set_solver.
Qed.

Lemma same_required environ environ' key :
  same_variables environ environ' → key ∈ required_keys environ →
  environ' !! key = environ !! key.
Proof.
  intros Hsame Hreq. symmetry. apply Hsame.
  unfold required_keys in Hreq. unfold variables_read.
  destruct (use_llm_farm environ); set_solver.
Qed.

Lemma same_missing_keys environ environ' :
  same_variables environ environ' → missing_keys environ' = missing_keys environ.
Proof.
  intros Hsame. unfold missing_keys.
  assert (required_keys environ' = required_keys environ) as ->
    by (unfold required_keys; rewrite (same_use_llm_farm _ _ Hsame); reflexivity).
  pose proof (same_required environ environ') as Hkey.
  unfold required_keys in *. unfold os_getenv.
  destruct (use_llm_farm environ);
    rewrite !filter_cons, !filter_nil, !Hkey by (auto; repeat constructor);
    reflexivity.
Qed.

Lemma same_tavily_key environ environ' :
  same_variables environ environ' →
  os_getenv environ' "TAVILY_API_KEY" = os_getenv environ "TAVILY_API_KEY".
Proof.
  intros Hsame. apply same_required; [exact Hsame|apply tavily_key_always_required].
Qed.

Lemma same_initialize_model environ environ' :
  same_variables environ environ' → initialize_model environ' = initialize_model environ.
Proof.
  intros Hsame. unfold initialize_model.
  rewrite (same_use_llm_farm _ _ Hsame).
  destruct (use_llm_farm environ) eqn:Huse; [|reflexivity].
  unfold llm_farm_url, os_getenv_or, os_getenv.
  rewrite <- (Hsame "LLM_FARM_URL"), <- (Hsame "LLM_FARM_API_KEY");
    [reflexivity|unfold variables_read; rewrite Huse; set_solver..].
Qed.

Lemma same_agent_module h environ environ' is_main :
  same_variables environ environ' →
  agent_module h environ' is_main = agent_module h environ is_main.
Proof.
  intros Hsame. unfold agent_module, check_environment, agent_main_block.
  rewrite (same_missing_keys _ _ Hsame), (same_use_llm_farm _ _ Hsame),
    (same_tavily_key _ _ Hsame), (same_initialize_model _ _ Hsame).
  reflexivity.
Qed.

(** X12. The module reads the backend flag, the search key, and the
    variables of the selected backend only: the key and URL of the LLM
    Farm when it is selected, the standard provider's key otherwise.  Two
    environments that agree on these give the same run, event for event,
    for both entry points. *)
Theorem agent_module_variables_read (h : Host) (environ environ' : gmap string string) :
  same_variables environ environ' →
  (∀ is_main, agent_module h environ' is_main = agent_module h environ is_main)
  ∧ main_py h environ' = main_py h environ.
Proof.
  intros Hsame. split.
  - intros is_main. apply same_agent_module, Hsame.
  - unfold main_py. rewrite (same_agent_module h _ _ false Hsame). reflexivity.
Qed.

(** With the LLM Farm selected, the standard provider's key is not read. *)
Lemma agent_module_variables_read_witness :
  agent_module Samples.no_files (<["OPENAI_API_KEY" := "sk"]> Samples.farm_without_url) true
  = agent_module Samples.no_files Samples.farm_without_url true.
Proof.
  destruct (agent_module_variables_read Samples.no_files Samples.farm_without_url
              (<["OPENAI_API_KEY" := "sk"]> Samples.farm_without_url)) as [Hmod _].
  - intros key Hkey. symmetry. apply lookup_insert_ne.
    intros <-. vm_compute in Hkey. set_solver.
  - apply Hmod.
Defined.

(** *** The order of events at start-up *)

Lemma load_fuel_logs n h p : all_events log_event (load_mcp_config_fuel n h p).
Proof.
  revert p. induction n as [|n IH]; intros p; cbn [load_mcp_config_fuel].
  - constructor.
  - unfold load_mcp_config_body. apply all_events_try.
    + destruct (os_path_exists h p).
      * unfold load_existing. events.
      * unfold load_missing. destruct (_ && _); events.
    + intros e. unfold load_except.
      destruct (is_FileNotFoundError e), (is_JSONDecodeError e),
        (is_ImportError e), (is_CalledProcessError e); events.
Qed.

Lemma log_mcp_servers_logs servers : all_events log_event (log_mcp_servers servers).
Proof.
  destruct servers as [|s servers]; unfold log_mcp_servers; [solve [events]|].
  apply all_events_bind; [events|intros _].
  apply all_events_bind; [|intros _; events].
  apply all_events_for_each. intros [i server]. events.
Qed.

Lemma initialize_model_logs environ : all_events log_event (initialize_model environ).
Proof. unfold initialize_model. destruct (use_llm_farm environ); events. Qed.

Lemma agent_main_block_shape environ servers :
  ∃ l, agent_main_block environ servers = (l ++ [UvicornRun "0.0.0.0" 8000], Ok tt)
       ∧ Forall log_event l.
Proof.
  exists (removelast (trace (agent_main_block environ servers))).
  unfold agent_main_block.
  destruct (use_llm_farm environ), servers as [|s servers];
    (split; [reflexivity|cbn; repeat constructor]).
Qed.

Lemma agent_module_trace_shape h environ is_main :
  missing_keys environ = [] →
  ∃ t1 t2,
    trace (agent_module h environ is_main)
    = t1 ++ TavilyClientNew (os_getenv environ "TAVILY_API_KEY") :: t2
         ++ (if is_main then [UvicornRun "0.0.0.0" 8000] else [])
    ∧ Forall log_event t1 ∧ Forall log_event t2.
Proof.
  intros Hnone. unfold agent_module.
  rewrite (check_environment_passes environ Hnone).
  destruct (load_mcp_config_returns h "mcp_config.json") as [servers Hservers].
  pose proof (load_fuel_logs recursion_limit h "mcp_config.json") as Hlogs1.
  fold (load_mcp_config h "mcp_config.json") in Hlogs1. unfold all_events in Hlogs1.
  destruct (load_mcp_config h "mcp_config.json") as [l1 r1].
  cbn [result snd trace fst] in Hservers, Hlogs1. subst r1.
  destruct (log_mcp_servers_returns servers) as [[] Hlog].
  pose proof (log_mcp_servers_logs servers) as Hlogs2. unfold all_events in Hlogs2.
  pose proof (initialize_model_result environ) as Hmodel.
  pose proof (initialize_model_logs environ) as Hlogs3. unfold all_events in Hlogs3.
  destruct (agent_main_block_shape environ servers) as (l4 & Hmain & Hlogs4).
  cbn [mbind M_bind emit logger_info mret M_ret].
  destruct (log_mcp_servers servers) as [l2 r2].
  cbn [result snd trace fst] in Hlog, Hlogs2. subst r2.
  destruct (initialize_model environ) as [l3 r3].
  cbn [result snd trace fst] in Hmodel, Hlogs3. subst r3.
  exists [Log INFO (if use_llm_farm environ then "Using LLM Farm custom endpoint"
                    else "Using standard OpenAI API");
          Log INFO "Environment variables loaded successfully"].
  exists (Log INFO "Tavily client initialized" :: l1 ++ l2 ++ l3
          ++ [Log INFO "🤖 Pydantic AI agent initialized with GPT-4o-mini";
              Log INFO ("🔧 Total toolsets available: "
                        +:+ PyStr.of_nat (length servers + 1) +:+ " (Tavily + "
                        +:+ PyStr.of_nat (length servers) +:+ " MCP servers)");
              Log INFO "AG-UI compatible ASGI application created with request logging middleware"]
          ++ (if is_main then l4 else [])).
  split; [|split].
  - destruct is_main.
    + rewrite Hmain. cbn [mbind M_bind emit logger_info mret M_ret trace fst app].
      rewrite ?app_nil_r, <- ?app_assoc. reflexivity.
    + cbn [mbind M_bind emit logger_info mret M_ret trace fst app].
      rewrite ?app_nil_r, <- ?app_assoc. reflexivity.
  - repeat constructor.
  - constructor; [reflexivity|].
    rewrite !Forall_app. repeat split; try assumption; [repeat constructor|].
    destruct is_main; [assumption|constructor].
Qed.

Lemma server_starts_app t1 t2 :
  server_starts (t1 ++ t2) = server_starts t1 ++ server_starts t2.
Proof. apply omap_app. Qed.

Lemma server_starts_logs t : Forall log_event t → server_starts t = [].
Proof.
  induction 1 as [|ev t Hev _ IH]; [reflexivity|].
  destruct ev; try discriminate Hev. exact IH.
Qed.

Lemma client_keys_app t1 t2 : client_keys (t1 ++ t2) = client_keys t1 ++ client_keys t2.
Proof. apply omap_app. Qed.

Lemma client_keys_logs t : Forall log_event t → client_keys t = [].
Proof.
  induction 1 as [|ev t Hev _ IH]; [reflexivity|].
  destruct ev; try discriminate Hev. exact IH.
Qed.

Lemma agent_module_trace_aborted h environ is_main :
  missing_keys environ ≠ [] → Forall log_event (trace (agent_module h environ is_main)).
Proof.
  intros Hne. unfold agent_module. rewrite (check_environment_raises environ Hne).
  repeat constructor.
Qed.

Lemma main_py_trace h environ :
  trace (main_py h environ) =
  trace (agent_module h environ false)
  ++ match result (agent_module h environ false) with
     | Ok _ =>
         [Log INFO (PyStr.repeat "=" 60);
          Log INFO "🚀 Starting Kubernetes AI Chatbot";
          Log INFO (PyStr.repeat "=" 60);
          Log INFO "📝 Logging enabled - check agent.log for detailed logs";
          Log INFO "🤖 Agent with Tavily search + Kubernetes MCP tools";
          Log INFO "🌐 Server starting on http://0.0.0.0:8000";
          Log INFO "🔗 AG-UI endpoint: http://0.0.0.0:8000/";
          Log INFO "ℹ️  Tools endpoint: http://0.0.0.0:8000/tools";
          Log INFO "⚙️  Configure .env with your API keys";
          Log INFO (PyStr.repeat "=" 60)] ++ [UvicornRun "0.0.0.0" 8000]
     | _ => []
     end.
Proof.
  unfold main_py. rewrite trace_bind.
  destruct (result (agent_module h environ false)); reflexivity.
Qed.

(** X13. The server is started last and once, and only by a program run
    whose initialisation succeeded.  With no required key missing, the
    trace of [agent.py] run as the program, and that of [main.py], end
    with the one start of the server on 0.0.0.0:8000; with a key missing
    neither starts it; importing the module never does. *)
Theorem server_started_last (h : Host) (environ : gmap string string) :
  (missing_keys environ = [] →
   (∃ t, trace (agent_module h environ true) = t ++ [UvicornRun "0.0.0.0" 8000]
         ∧ server_starts t = [])
   ∧ (∃ t, trace (main_py h environ) = t ++ [UvicornRun "0.0.0.0" 8000]
           ∧ server_starts t = []))
  ∧ (missing_keys environ ≠ [] →
     server_starts (trace (agent_module h environ true)) = []
     ∧ server_starts (trace (main_py h environ)) = [])
  ∧ server_starts (trace (agent_module h environ false)) = [].
Proof.
  assert (server_starts (trace (agent_module h environ false)) = []) as Himport.
  { destruct (missing_keys environ) as [|key keys] eqn:Hmissing.
    - destruct (agent_module_trace_shape h environ false Hmissing)
        as (t1 & t2 & -> & Ht1 & Ht2).
      rewrite server_starts_app, (server_starts_logs t1 Ht1).
      cbn [app server_starts omap list_omap]. rewrite app_nil_r.
      apply server_starts_logs, Ht2.
    - apply server_starts_logs, agent_module_trace_aborted.
      rewrite Hmissing. discriminate. }
  split; [|split; [|exact Himport]].
  - intros Hnone. split.
    + destruct (agent_module_trace_shape h environ true Hnone)
        as (t1 & t2 & -> & Ht1 & Ht2).
      exists (t1 ++ TavilyClientNew (os_getenv environ "TAVILY_API_KEY") :: t2).
      split; [rewrite <- app_assoc; reflexivity|].
      rewrite server_starts_app, (server_starts_logs t1 Ht1).
      apply (server_starts_logs t2 Ht2).
    + rewrite main_py_trace.
      destruct (agent_module_starts h environ false Hnone) as (t & servers & Heq & _).
      rewrite Heq in *. cbn [trace result fst snd] in *.
      eexists (t ++ _). split; [rewrite <- app_assoc; reflexivity|].
      rewrite server_starts_app, Himport. reflexivity.
  - intros Hne. split.
    + apply server_starts_logs, agent_module_trace_aborted, Hne.
    + rewrite main_py_trace.
      destruct (agent_module_aborts h environ false Hne) as (t & Heq & _).
      rewrite Heq in *. cbn [trace result fst snd] in *.
      rewrite app_nil_r. exact Himport.
Qed.

(** The LLM Farm with its keys: the run ends with the server start. *)
Lemma server_started_last_witness :
  ∃ t, trace (agent_module Samples.no_files Samples.farm_without_url true)
       = t ++ [UvicornRun "0.0.0.0" 8000]
       ∧ server_starts t = [].
Proof.
  destruct (server_started_last Samples.no_files Samples.farm_without_url)
    as [Hstarts _].
  destruct (Hstarts eq_refl) as [Hagent _]. exact Hagent.
Defined.

(** X14. A Tavily client is never built without a key: initialisation
    builds at most one client, and when it builds one the key it passes is
    the non-empty value of TAVILY_API_KEY. *)
Theorem tavily_client_has_key (h : Host) (environ : gmap string string)
    (is_main : bool) :
  length (client_keys (trace (agent_module h environ is_main))) ≤ 1
  ∧ ∀ k, k ∈ client_keys (trace (agent_module h environ is_main)) →
         ∃ v, k = Some v ∧ v ≠ "" ∧ environ !! "TAVILY_API_KEY" = Some v.
Proof.
  destruct (missing_keys environ) as [|key keys] eqn:Hmissing.
  - destruct (agent_module_trace_shape h environ is_main Hmissing)
      as (t1 & t2 & -> & Ht1 & Ht2).
    assert (client_keys (t1 ++ TavilyClientNew (os_getenv environ "TAVILY_API_KEY")
                          :: t2 ++ (if is_main then [UvicornRun "0.0.0.0" 8000] else []))
            = [os_getenv environ "TAVILY_API_KEY"]) as ->.
    { rewrite client_keys_app, (client_keys_logs t1 Ht1).
      cbn [app client_keys omap list_omap]. f_equal.
      change (client_keys (t2 ++ (if is_main then [UvicornRun "0.0.0.0" 8000] else [])) = []).
      rewrite client_keys_app, (client_keys_logs t2 Ht2).
      destruct is_main; reflexivity. }
    split; [reflexivity|]. intros k Hk. apply list_elem_of_singleton in Hk as ->.
    destruct (proj1 (missing_keys_nil environ) Hmissing "TAVILY_API_KEY")
      as (v & Hv & Hne); [apply tavily_key_always_required|].
    exists v. unfold os_getenv. auto.
  - rewrite client_keys_logs.
    + split; [cbn; lia|]. intros k Hk. inversion Hk.
    + apply agent_module_trace_aborted. rewrite Hmissing. discriminate.
Qed.

(** X15. With the LLM Farm selected and initialisation successful, the
    model is bound to the value of LLM_FARM_URL exactly as it is set, the
    empty string included (the default applies to an unset variable
    only); the subscription key travels in the header, and the client's
    own API key is the fixed string "dummy". *)
Theorem llm_farm_url_as_set (h : Host) (environ : gmap string string)
    (u : string) (is_main : bool) :
  use_llm_farm environ = true →
  missing_keys environ = [] →
  environ !! "LLM_FARM_URL" = Some u →
  ∃ m, result (agent_module h environ is_main) = Ok m
       ∧ mod_model m =
         OpenAIChatModel "gpt-4o-mini"
           {| base_url := u;
              api_key := "dummy";
              default_headers :=
                [("genaiplatform-farm-subscription-key", environ !! "LLM_FARM_API_KEY")];
              default_query := [("api-version", "2024-08-01-preview")] |}.
Proof.
  intros Huse Hnone Hurl.
  destruct (agent_module_starts h environ is_main Hnone) as (t & servers & Heq & _).
  eexists. rewrite Heq. split; [reflexivity|].
  cbn [mod_model]. unfold selected_model, llm_farm_url, os_getenv_or, os_getenv.
  rewrite Huse, Hurl. reflexivity.
Qed.

(** LLM_FARM_URL set to the empty string. *)
Lemma llm_farm_url_as_set_witness :
  ∃ m, result (agent_module Samples.no_files
                 (<["LLM_FARM_URL" := ""]> Samples.farm_without_url) false) = Ok m
       ∧ ∃ client, mod_model m = OpenAIChatModel "gpt-4o-mini" client
                   ∧ base_url client = "".
Proof.
  destruct (llm_farm_url_as_set Samples.no_files
              (<["LLM_FARM_URL" := ""]> Samples.farm_without_url) "" false)
    as (m & Hm & Hmodel); [reflexivity..|].
  exists m. split; [exact Hm|]. eexists. split; [exact Hmodel|reflexivity].
Defined.

(** *** The list of tool servers in the log *)

Lemma for_each_server_lines (k : nat) (servers : list MCPServer) :
  for_each (λ '(i, server),
              logger_info ("  " +:+ PyStr.of_nat i +:+ ". " +:+ server_display_name server))
           (zip (seq (S k) (length servers)) servers)
  = (imap (λ i, server_line (k + i)) servers, Ok ((λ _, tt) <$> servers)).
Proof.
  revert k. induction servers as [|server servers IH]; intros k; [reflexivity|].
  cbn [length seq zip zip_with for_each]. rewrite (IH (S k)).
  cbn. unfold server_line at 1. rewrite Nat.add_0_r, app_nil_r.
  do 2 f_equal. apply imap_ext. intros i x _. cbn. unfold server_line.
  rewrite Nat.add_succ_r. reflexivity.
Qed.

(** X16. When the registry is not empty, the log lists it after one
    header line: one line per server, in registry order, numbered from 1,
    showing the server's [_name], or its class name when it has none. *)
Theorem log_mcp_servers_lines (servers : list MCPServer) :
  servers ≠ [] →
  log_mcp_servers servers =
  (Log INFO "🔧 Available MCP toolsets:" :: imap server_line servers, Ok tt).
Proof.
  intros Hne. destruct servers as [|server servers]; [contradiction|].
  unfold log_mcp_servers. rewrite (for_each_server_lines 0). cbn.
  rewrite app_nil_r. reflexivity.
Qed.

(** A named server and an unnamed one. *)
Lemma log_mcp_servers_lines_witness :
  log_mcp_servers [Samples.kube; Samples.fetch] =
  ([Log INFO "🔧 Available MCP toolsets:";
    Log INFO "  1. kubernetes";
    Log INFO "  2. MCPServerStdio"], Ok tt).
Proof.
  rewrite (log_mcp_servers_lines [Samples.kube; Samples.fetch]); [reflexivity|discriminate].
Defined.

(** ** The request logging middleware *)

Lemma log_request_body_terminates wh rid request :
  terminates (log_request_body wh rid request).
Proof.
  unfold log_request_body. destruct (String.eqb _ _); [|ends].
  apply terminates_bind; [ends|intros body].
  destruct (negb _); [|ends].
  unfold terminates. rewrite result_try_except.
  match goal with |- context [result ?m] =>
    assert (terminates m) as Hbody by ends; unfold terminates in Hbody;
    destruct (result m) as [[]|e|]; [discriminate| |contradiction]
  end.
  apply (terminates_bind (call (bytes_decode wh body))); [ends|intros raw; ends].
Qed.

Lemma log_request_body_readable wh rid request :
  body_readable wh request → result (log_request_body wh rid request) = Ok tt.
Proof.
  intros Hreadable. unfold log_request_body.
  destruct (String.eqb_spec (req_method request) "POST") as [Hpost|Hother];
    [|reflexivity].
  destruct Hreadable as [Hnot|(body & Hbody & Hdecodes)]; [contradiction|].
  rewrite Hbody. rewrite (bind_result_Ok _ _ body) by reflexivity.
  destruct Hdecodes as [->|[text Htext]]; [reflexivity|].
  destruct (negb _); [|reflexivity].
  rewrite result_try_except, Htext.
  match goal with |- context [result ?m] =>
    assert (terminates m) as Hterm by ends; unfold terminates in Hterm;
    destruct (result m) as [[]|e|]; [reflexivity|reflexivity|contradiction]
  end.
Qed.

(** X17. The middleware is transparent to what the next handler does.
    For a request that is not a POST, or whose body is empty or decodes,
    [dispatch] returns the handler's response unchanged and lets the
    handler's exception through; whether the body is JSON plays no part. *)
Theorem dispatch_transparent (wh : WebHost) (request : Request)
    (call_next : Request → call_result Response) :
  body_readable wh request →
  result (dispatch wh request call_next) = handler_outcome (call_next request).
Proof.
  intros Hreadable. unfold dispatch.
  rewrite (bind_result_Ok _ _ tt) by reflexivity.
  rewrite (bind_result_Ok _ _ tt) by reflexivity.
  rewrite (bind_result_Ok _ _ tt) by (apply log_request_body_readable, Hreadable).
  destruct (call_next request) as [response|e]; reflexivity.
Qed.

(** A POST whose body is text but not JSON. *)
Lemma dispatch_transparent_witness :
  result (dispatch Samples.web (Samples.post "hello") Samples.ok_handler)
  = Ok (mk_Response 200 "ok").
Proof.
  rewrite (dispatch_transparent Samples.web (Samples.post "hello") Samples.ok_handler);
    [reflexivity|].
  right. exists "hello". split; [reflexivity|]. right. exists "hello". reflexivity.
Defined.

(** X18. A POST body that cannot be read stops the request before the
    next handler: if reading the body raises, or the body is not empty
    and does not decode, [dispatch] raises that exception whatever the
    handler would do, and the log ends after the two records of the
    incoming request, with no body and no response record. *)
Theorem dispatch_unreadable_body (wh : WebHost) (request : Request)
    (call_next : Request → call_result Response) (e : exn) :
  req_method request = "POST" →
  req_body request = Throws e
  ∨ (∃ body, req_body request = Returns body ∧ body ≠ ""
             ∧ bytes_decode wh body = Throws e) →
  dispatch wh request call_next =
  ([Log INFO ("[" +:+ web_now wh +:+ "] 📨 INCOMING REQUEST: "
              +:+ req_method request +:+ " " +:+ req_url_path request);
    Log INFO ("[" +:+ web_now wh +:+ "] Headers: "
              +:+ headers_str wh (req_headers request))],
   Raise e).
Proof.
  intros Hpost Hbad. unfold dispatch, log_request_body.
  apply String.eqb_eq in Hpost. rewrite Hpost.
  destruct Hbad as [Hbody|(body & Hbody & Hne & Hdecode)]; rewrite Hbody.
  - reflexivity.
  - apply String.eqb_neq in Hne.
    cbn [call mbind M_bind mret M_ret logger_info emit app].
    rewrite Hne, Hdecode. reflexivity.
Qed.

(** A POST whose body is the byte 0xff. *)
Lemma dispatch_unreadable_body_witness :
  result (dispatch Samples.web
            (Samples.post (String (Ascii.ascii_of_N 255) EmptyString)) Samples.ok_handler)
  = Raise (mk_exn (OtherException "UnicodeDecodeError")
             "'utf-8' codec can't decode byte 0xff in position 0: invalid start byte").
Proof.
  rewrite (dispatch_unreadable_body Samples.web
             (Samples.post (String (Ascii.ascii_of_N 255) EmptyString)) Samples.ok_handler
             (mk_exn (OtherException "UnicodeDecodeError")
                "'utf-8' codec can't decode byte 0xff in position 0: invalid start byte"));
    [reflexivity|reflexivity|].
  right. eexists. split; [reflexivity|]. split; [discriminate|reflexivity].
Defined.

(** X19. Every record the middleware logs for one request starts with the
    same bracketed identifier, the clock reading taken on entry. *)
Theorem dispatch_logs_tagged (wh : WebHost) (request : Request)
    (call_next : Request → call_result Response) :
  all_events (tagged (web_now wh)) (dispatch wh request call_next).
Proof.
  unfold dispatch.
  apply all_events_bind; [auto with evs|intros _].
  apply all_events_bind; [auto with evs|intros _].
  apply all_events_bind; [|intros _; events].
  unfold log_request_body. destruct (String.eqb _ _); [|events].
  apply all_events_bind; [events|intros body].
  destruct (negb _); [|events].
  apply all_events_try; [events|intros e; events].
Qed.
